(** * Provider resolution, model handle factory, logger, upload route and
      model catalog of the chatbot: a shallow embedding and its properties.

    Source files embedded here:
    - [lib/ai/index.ts]         ([createProviderModel], [customModel])
    - [lib/ai/models.ts]        ([models], [DEFAULT_MODEL_NAME])
    - [lib/utilities/logger.ts] ([LogLevel], [getLogLevel], [createLogger])
    - the upload route          ([FileSchema], [POST])

    The middleware chain behind [wrapLanguageModel] has no source here; module
    [Chain] models it from the specification and says so at each definition.

    JavaScript strings are represented by [string]; the operations used by
    the sources ([startsWith], [replace] with a string pattern, [===],
    [Array.prototype.includes], [join]) act position by position, so they
    read the same on the UTF-8 bytes of a string as on its code units when
    the patterns are ASCII, as all patterns of the sources are. *)

From Stdlib Require Import String Ascii List ZArith Lia Bool.
Import ListNotations.
Open Scope string_scope.

(* ===================================================================== *)
(** ** The string primitives the sources call *)
(* ===================================================================== *)

Module JsString.

(** [s.startsWith(searchString)], from position 0. *)
Fixpoint startsWith (s searchString : string) {struct searchString} : bool :=
  match searchString with
  | EmptyString => true
  | String c rest =>
      match s with
      | EmptyString => false
      | String d s' => Ascii.eqb d c && startsWith s' rest
      end
  end.

(** [s.slice(n)] for [0 <= n]. *)
Fixpoint slice (n : nat) (s : string) : string :=
  match n, s with
  | O, _ => s
  | S _, EmptyString => EmptyString
  | S n', String _ s' => slice n' s'
  end.

(** [s.replace(pattern, replacement)] with a string [pattern]: only the
    first (leftmost) occurrence is replaced, and a string without an
    occurrence is returned as it is.  The replacement is taken literally;
    the sources only ever pass the empty string, which holds no [$]
    pattern. *)
Fixpoint replace (s pattern replacement : string) : string :=
  if startsWith s pattern then replacement ++ slice (String.length pattern) s
  else
    match s with
    | EmptyString => EmptyString
    | String c s' => String c (replace s' pattern replacement)
    end.

(** [parts.join(sep)]. *)
Fixpoint join (sep : string) (parts : list string) : string :=
  match parts with
  | [] => ""
  | [p] => p
  | p :: rest => p ++ sep ++ join sep rest
  end.

(** [list.includes(x)] on strings (strict equality). *)
Definition includes (l : list string) (x : string) : bool :=
  existsb (String.eqb x) l.

Lemma startsWith_app (tag rest : string) : startsWith (tag ++ rest) tag = true.
Proof.
  induction tag as [|c tag IH]; simpl.
  - reflexivity.
  - rewrite Ascii.eqb_refl. exact IH.
Qed.

Lemma startsWith_split (tag s : string) :
  startsWith s tag = true -> s = tag ++ slice (String.length tag) s.
Proof.
  revert s. induction tag as [|c tag IH]; intros s H; simpl in *.
  - reflexivity.
  - destruct s as [|d s']; [discriminate|].
    apply andb_true_iff in H. destruct H as [Hc Hr].
    apply Ascii.eqb_eq in Hc. subst d.
    simpl. f_equal. apply IH. exact Hr.
Qed.

Lemma slice_app (tag rest : string) : slice (String.length tag) (tag ++ rest) = rest.
Proof. induction tag as [|c tag IH]; simpl; [reflexivity | exact IH]. Qed.

(** An occurrence at position 0 is the leftmost one: replacing a leading
    tag by the empty string is removing the tag. *)
Lemma replace_leading (tag rest : string) : replace (tag ++ rest) tag "" = rest.
Proof.
  destruct tag as [|c tag]; simpl.
  - destruct rest; reflexivity.
  - rewrite Ascii.eqb_refl, startsWith_app. simpl. apply slice_app.
Qed.

(** Only the first occurrence goes, and a string without one stays. *)
Example replace_first_only :
  replace "anthropic:x-anthropic:y" "anthropic:" "" = "x-anthropic:y" /\
  replace "a-bedrock:b-bedrock:c" "bedrock:" "" = "a-b-bedrock:c" /\
  replace "gpt-4o" "bedrock:" "" = "gpt-4o".
Proof. repeat split. Qed.

End JsString.

(* ===================================================================== *)
(** ** Completions and the state-and-exception monad of the effectful code *)
(* ===================================================================== *)

(** How a call ends: it returns a value or it throws. *)
Inductive Completion (E A : Type) : Type :=
| Normal (a : A)
| Throw (e : E).

Arguments Normal {E A} a.
Arguments Throw {E A} e.

Module Eff.

Section Monad.
Context {S E : Type}.

Definition M (A : Type) : Type := S -> Completion E A * S.

Definition ret {A} (a : A) : M A := fun st => (Normal a, st).

(** Sequencing: a throw of the first computation skips the second one. *)
Definition bind {A B} (m : M A) (k : A -> M B) : M B :=
  fun st =>
    match m st with
    | (Normal a, st') => k a st'
    | (Throw e, st') => (Throw e, st')
    end.

(** [try { body } catch (error) { handler(error) }]. *)
Definition tryCatch {A} (body : M A) (handler : E -> M A) : M A :=
  fun st =>
    match body st with
    | (Normal a, st') => (Normal a, st')
    | (Throw e, st') => handler e st'
    end.

End Monad.

Arguments M : clear implicits.

End Eff.

Declare Scope eff_scope.
Delimit Scope eff_scope with eff.
Notation "x <- c ;; k" := (Eff.bind c (fun x => k))
  (at level 61, c at next level, right associativity) : eff_scope.
Notation "c ;;; k" := (Eff.bind c (fun _ => k))
  (at level 61, right associativity) : eff_scope.

(* ===================================================================== *)
(** ** lib/ai/index.ts *)
(* ===================================================================== *)

Module Ai.
Import JsString.

(** The three SDK entry points the module imports. *)
Inductive Provider : Type := Anthropic | Bedrock | OpenAI.

Section Resolution.
(** [createProviderModel] only ever returns what a constructor call
    returns, so it is written once for any type [R] of such calls. *)
Context {R : Type}.
Variables anthropic bedrock openai : string -> R.

Definition createProviderModel (apiIdentifier : string) : R :=
  if startsWith apiIdentifier "anthropic:" then
    let modelId := replace apiIdentifier "anthropic:" "" in
    anthropic modelId
  else if startsWith apiIdentifier "bedrock:" then
    let modelId := replace apiIdentifier "bedrock:" "" in
    bedrock modelId
  else
    openai apiIdentifier.

End Resolution.

(** The constructor call [createProviderModel] makes for an identifier:
    the same function run with constructors that only report who was
    called and with which argument. *)
Definition selection (apiIdentifier : string) : Provider * string :=
  createProviderModel (pair Anthropic) (pair Bedrock) (pair OpenAI) apiIdentifier.

Section Factory.
(** What lies outside the module: the provider SDKs, [wrapLanguageModel] of
    the [ai] package and the [customMiddleware] object.  A constructor may
    read ambient configuration and may throw; [World] stands for all it can
    read or change. *)
Variables World Model Middleware Handle Thrown : Type.
Variable sdk : Provider -> string -> World -> Completion Thrown Model * World.
Variable wrapImpl : Model -> Middleware -> World -> Completion Thrown Handle * World.
Variable customMiddleware : Middleware.

(** The argument object of [wrapLanguageModel]. *)
Record WrapOptions : Type := { model : Model; middleware : Middleware }.

(** The calls that leave the module, in the order they are made. *)
Inductive Call : Type :=
| Construct (p : Provider) (modelId : string)
| Wrap (options : WrapOptions).

Record State : Type := { world : World; calls : list Call }.

Definition M : Type -> Type := Eff.M State Thrown.

Definition construct (p : Provider) (modelId : string) : M Model :=
  fun st =>
    let (r, w) := sdk p modelId (world st) in
    (r, {| world := w; calls := calls st ++ [Construct p modelId] |}).

Definition anthropic : string -> M Model := construct Anthropic.
Definition bedrock : string -> M Model := construct Bedrock.
Definition openai : string -> M Model := construct OpenAI.

Definition wrapLanguageModel (options : WrapOptions) : M Handle :=
  fun st =>
    let (r, w) := wrapImpl (model options) (middleware options) (world st) in
    (r, {| world := w; calls := calls st ++ [Wrap options] |}).

Definition customModel (apiIdentifier : string) : M Handle :=
  (model <- createProviderModel anthropic bedrock openai apiIdentifier ;;
   wrapLanguageModel {| model := model; middleware := customMiddleware |})%eff.

(** The calls made while [m] runs from [st]. *)
Definition callsDuring {A} (m : M A) (st : State) : list Call :=
  skipn (length (calls st)) (calls (snd (m st))).

End Factory.

Arguments Construct {Model Middleware} p modelId.
Arguments Wrap {Model Middleware} options.
Arguments world {World Model Middleware} s.
Arguments calls {World Model Middleware} s.
Arguments Build_State {World Model Middleware} world calls.
Arguments model {Model Middleware} w.
Arguments middleware {Model Middleware} w.
Arguments Build_WrapOptions {Model Middleware} model middleware.
Arguments construct {World Model Middleware Thrown} sdk p modelId.
Arguments anthropic {World Model Middleware Thrown} sdk.
Arguments bedrock {World Model Middleware Thrown} sdk.
Arguments openai {World Model Middleware Thrown} sdk.
Arguments wrapLanguageModel {World Model Middleware Handle Thrown} wrapImpl options.
Arguments customModel {World Model Middleware Handle Thrown} sdk wrapImpl customMiddleware apiIdentifier.
Arguments callsDuring {World Model Middleware Thrown A} m st.

(** Small environments on which the statements below are run: a model is
    named by the string its constructor received, a handle by the model it
    wraps, and a constructor throws when the credentials are missing. *)
Definition demoSdk (p : Provider) (modelId : string) (credentials : bool)
  : Completion string (Provider * string) * bool :=
  if credentials then (Normal (p, modelId), credentials)
  else (Throw "missing credentials", credentials).

Definition demoWrap (m : Provider * string) (mw : list string) (credentials : bool)
  : Completion string (list string * (Provider * string)) * bool :=
  (Normal (mw, m), credentials).

Definition demoState (credentials : bool) : State bool (Provider * string) (list string) :=
  {| world := credentials; calls := [] |}.

Definition demoConstruct (p : Provider) (modelId : string)
  : M bool (Provider * string) (list string) string (Provider * string) :=
  construct demoSdk p modelId.

(* --------------------------------------------------------------------- *)
(** *** Facts about resolution *)
(* --------------------------------------------------------------------- *)

Lemma skipn_length_app {A} (l l' : list A) : skipn (length l) (l ++ l') = l'.
Proof. induction l as [|x l IH]; simpl; [reflexivity | exact IH]. Qed.

Section ResolutionFacts.
Context {R : Type}.
Variables a b o : string -> R.

Lemma createProviderModel_anthropic (rest : string) :
  createProviderModel a b o ("anthropic:" ++ rest) = a rest.
Proof.
  unfold createProviderModel.
  rewrite startsWith_app, replace_leading. reflexivity.
Qed.

Lemma createProviderModel_bedrock (rest : string) :
  createProviderModel a b o ("bedrock:" ++ rest) = b rest.
Proof.
  unfold createProviderModel.
  replace (startsWith ("bedrock:" ++ rest) "anthropic:") with false by reflexivity.
  rewrite startsWith_app, replace_leading. reflexivity.
Qed.

Lemma createProviderModel_default (apiIdentifier : string) :
  startsWith apiIdentifier "anthropic:" = false ->
  startsWith apiIdentifier "bedrock:" = false ->
  createProviderModel a b o apiIdentifier = o apiIdentifier.
Proof.
  intros Ha Hb. unfold createProviderModel. rewrite Ha, Hb. reflexivity.
Qed.

(** Whatever the constructors are, the call made is the one [selection]
    reports. *)
Lemma createProviderModel_selection (apiIdentifier : string) :
  createProviderModel a b o apiIdentifier =
  match selection apiIdentifier with
  | (Anthropic, modelId) => a modelId
  | (Bedrock, modelId) => b modelId
  | (OpenAI, modelId) => o modelId
  end.
Proof.
  unfold selection, createProviderModel.
  destruct (startsWith apiIdentifier "anthropic:"); [reflexivity|].
  destruct (startsWith apiIdentifier "bedrock:"); reflexivity.
Qed.

End ResolutionFacts.

Lemma tag_split (tag apiIdentifier : string) :
  startsWith apiIdentifier tag = true ->
  exists rest, rest = slice (String.length tag) apiIdentifier /\ apiIdentifier = tag ++ rest.
Proof.
  intros H. eexists. split; [reflexivity|]. apply startsWith_split. exact H.
Qed.

(* --------------------------------------------------------------------- *)
(** *** Resolution: which constructor is called, and with what *)
(* --------------------------------------------------------------------- *)

(** C1: for every identifier that starts with one of the two namespace
    tags ["anthropic:"] and ["bedrock:"], [createProviderModel] calls that
    provider's constructor, whatever the constructors are, and the argument
    is the identifier without the leading tag: the identifier is the tag
    followed by exactly the string the constructor receives. *)
Theorem createProviderModel_strips_registered_tag
  {R : Type} (a b o : string -> R) (apiIdentifier : string) :
  (startsWith apiIdentifier "anthropic:" = true ->
   exists modelId, apiIdentifier = "anthropic:" ++ modelId /\
                   selection apiIdentifier = (Anthropic, modelId) /\
                   createProviderModel a b o apiIdentifier = a modelId) /\
  (startsWith apiIdentifier "bedrock:" = true ->
   exists modelId, apiIdentifier = "bedrock:" ++ modelId /\
                   selection apiIdentifier = (Bedrock, modelId) /\
                   createProviderModel a b o apiIdentifier = b modelId).
Proof.
  split; intros H; destruct (tag_split _ _ H) as [rest [_ E]]; exists rest;
    subst apiIdentifier; unfold selection.
  - rewrite !createProviderModel_anthropic. auto.
  - rewrite !createProviderModel_bedrock. auto.
Qed.

(** On ["anthropic:claude-3-5-sonnet-20241022"] the anthropic constructor
    receives ["claude-3-5-sonnet-20241022"]. *)
Lemma createProviderModel_strips_registered_tag_witness :
  startsWith "anthropic:claude-3-5-sonnet-20241022" "anthropic:" = true /\
  exists modelId,
    "anthropic:claude-3-5-sonnet-20241022" = "anthropic:" ++ modelId /\
    selection "anthropic:claude-3-5-sonnet-20241022" = (Anthropic, modelId) /\
    createProviderModel (demoConstruct Anthropic) (demoConstruct Bedrock)
      (demoConstruct OpenAI) "anthropic:claude-3-5-sonnet-20241022"
    = demoConstruct Anthropic modelId.
Proof.
  split; [reflexivity|].
  exact (proj1 (createProviderModel_strips_registered_tag
                  (demoConstruct Anthropic) (demoConstruct Bedrock)
                  (demoConstruct OpenAI)
                  "anthropic:claude-3-5-sonnet-20241022") eq_refl).
Defined.

(** C2: for every identifier that starts with neither ["anthropic:"] nor
    ["bedrock:"], [createProviderModel] calls the openai constructor,
    whatever the constructors are, with the whole identifier unchanged. *)
Theorem createProviderModel_falls_back_to_openai
  {R : Type} (a b o : string -> R) (apiIdentifier : string) :
  startsWith apiIdentifier "anthropic:" = false ->
  startsWith apiIdentifier "bedrock:" = false ->
  selection apiIdentifier = (OpenAI, apiIdentifier) /\
  createProviderModel a b o apiIdentifier = o apiIdentifier.
Proof.
  intros Ha Hb. unfold selection.
  rewrite !createProviderModel_default by assumption. auto.
Qed.

Lemma createProviderModel_falls_back_to_openai_witness :
  selection "gpt-4o" = (OpenAI, "gpt-4o") /\
  createProviderModel (demoConstruct Anthropic) (demoConstruct Bedrock)
    (demoConstruct OpenAI) "gpt-4o" = demoConstruct OpenAI "gpt-4o".
Proof.
  apply (createProviderModel_falls_back_to_openai
           (demoConstruct Anthropic) (demoConstruct Bedrock)
           (demoConstruct OpenAI) "gpt-4o"); reflexivity.
Defined.

(* --------------------------------------------------------------------- *)
(** *** The factory [customModel] *)
(* --------------------------------------------------------------------- *)

Section FactoryFacts.
Variables World Model Middleware Handle Thrown : Type.
Variable sdk : Provider -> string -> World -> Completion Thrown Model * World.
Variable wrapImpl : Model -> Middleware -> World -> Completion Thrown Handle * World.
Variable customMiddleware : Middleware.

Local Abbreviation resolve :=
  (createProviderModel (anthropic sdk) (bedrock sdk) (openai sdk)
     : string -> M World Model Middleware Thrown Model).
Local Abbreviation factory := (customModel sdk wrapImpl customMiddleware).
Local Abbreviation wrapped m := {| model := m; middleware := customMiddleware |}.
Local Abbreviation selectedCall id := (Construct (fst (selection id)) (snd (selection id))).

(** A run of resolution is one call of the selected constructor. *)
Lemma resolve_run (apiIdentifier : string) (st : State World Model Middleware) :
  resolve apiIdentifier st =
  (fst (sdk (fst (selection apiIdentifier)) (snd (selection apiIdentifier)) (world st)),
   {| world := snd (sdk (fst (selection apiIdentifier)) (snd (selection apiIdentifier)) (world st));
      calls := (calls st ++ [selectedCall apiIdentifier])%list |}).
Proof.
  rewrite createProviderModel_selection.
  destruct (selection apiIdentifier) as [[| |] modelId]; simpl;
    unfold anthropic, bedrock, openai, construct;
    destruct (sdk _ modelId (world st)); reflexivity.
Qed.

Lemma factory_unfold (apiIdentifier : string) (st : State World Model Middleware) :
  factory apiIdentifier st =
  match resolve apiIdentifier st with
  | (Normal m, st1) => wrapLanguageModel wrapImpl (wrapped m) st1
  | (Throw e, st1) => (Throw e, st1)
  end.
Proof. reflexivity. Qed.

Lemma wrapLanguageModel_calls (options : WrapOptions Model Middleware)
      (st : State World Model Middleware) :
  calls (snd (wrapLanguageModel wrapImpl options st)) = (calls st ++ [Wrap options])%list /\
  world (snd (wrapLanguageModel wrapImpl options st))
  = snd (wrapImpl (model options) (middleware options) (world st)).
Proof.
  unfold wrapLanguageModel.
  destruct (wrapImpl (model options) (middleware options) (world st)); simpl; auto.
Qed.

(** C3: for every identifier, [customModel] first runs resolution and then
    hands exactly the model resolution returned, paired with the static
    [customMiddleware], to [wrapLanguageModel], whose result it returns.
    These are its only calls (one constructor call, then one wrap call, and
    no wrap call when resolution throws), and the world afterwards is the
    one these calls leave: the factory has no state of its own. *)
Theorem customModel_resolves_then_wraps
  (apiIdentifier : string) (st : State World Model Middleware) :
  match resolve apiIdentifier st with
  | (Normal m, st1) =>
      factory apiIdentifier st = wrapLanguageModel wrapImpl (wrapped m) st1 /\
      callsDuring (factory apiIdentifier) st
      = [selectedCall apiIdentifier; Wrap (wrapped m)] /\
      world (snd (factory apiIdentifier st))
      = snd (wrapImpl m customMiddleware (world st1))
  | (Throw e, st1) =>
      factory apiIdentifier st = (Throw e, st1) /\
      callsDuring (factory apiIdentifier) st = [selectedCall apiIdentifier] /\
      world (snd (factory apiIdentifier st)) = world st1
  end.
Proof.
  unfold callsDuring. rewrite factory_unfold, resolve_run.
  destruct (sdk _ _ (world st)) as [[m|e] w1]; simpl fst; simpl snd; cbv iota beta.
  - destruct (wrapLanguageModel_calls (wrapped m)
                {| world := w1; calls := (calls st ++ [selectedCall apiIdentifier])%list |})
      as [Hc Hw].
    split; [reflexivity|]. split.
    + rewrite Hc. simpl calls. rewrite <- app_assoc. apply skipn_length_app.
    + exact Hw.
  - split; [reflexivity|]. split; [|reflexivity].
    simpl. apply skipn_length_app.
Qed.

(** C4: if the constructor selected for the identifier throws, resolution
    throws that same value and so does [customModel], at once: the state
    they leave is the one the throwing call left, with that one
    constructor call and nothing after it (no second attempt, no other
    provider, no wrap). *)
Theorem constructor_throw_propagates
  (apiIdentifier : string) (st : State World Model Middleware)
  (e : Thrown) (w1 : World) :
  sdk (fst (selection apiIdentifier)) (snd (selection apiIdentifier)) (world st)
  = (Throw e, w1) ->
  resolve apiIdentifier st
  = (Throw e, {| world := w1; calls := (calls st ++ [selectedCall apiIdentifier])%list |}) /\
  factory apiIdentifier st
  = (Throw e, {| world := w1; calls := (calls st ++ [selectedCall apiIdentifier])%list |}) /\
  callsDuring (factory apiIdentifier) st = [selectedCall apiIdentifier].
Proof.
  intros H. unfold callsDuring. rewrite factory_unfold, resolve_run, H. simpl.
  repeat split. apply skipn_length_app.
Qed.

(** C9: the empty identifier is not rejected.  It starts with neither
    tag, so resolution is the openai constructor called with [""], and the
    factory goes on to wrap whatever model that call returns. *)
Theorem customModel_empty_identifier (st : State World Model Middleware) :
  selection "" = (OpenAI, "") /\
  resolve "" st = openai sdk "" st /\
  factory "" st
  = (m <- openai sdk "" ;; wrapLanguageModel wrapImpl (wrapped m))%eff st /\
  (forall m w1,
      sdk OpenAI "" (world st) = (Normal m, w1) ->
      factory "" st
      = wrapLanguageModel wrapImpl (wrapped m)
          {| world := w1; calls := (calls st ++ [Construct OpenAI ""])%list |}).
Proof.
  repeat split.
  intros m w1 H. rewrite factory_unfold, resolve_run. simpl. rewrite H. reflexivity.
Qed.

End FactoryFacts.

(** A catalog identifier run through the factory: the bedrock constructor
    gets the name without the tag, and the model it returns is what gets
    wrapped. *)
Example customModel_bedrock_run :
  customModel demoSdk demoWrap ["logging"]
    "bedrock:anthropic.claude-3-haiku-20240307-v1:0" (demoState true)
  = (Normal (["logging"], (Bedrock, "anthropic.claude-3-haiku-20240307-v1:0")),
     {| world := true;
        calls := [Construct Bedrock "anthropic.claude-3-haiku-20240307-v1:0";
                  Wrap {| model := (Bedrock, "anthropic.claude-3-haiku-20240307-v1:0");
                          middleware := ["logging"] |}] |}).
Proof. reflexivity. Qed.

Lemma constructor_throw_propagates_witness :
  demoSdk (fst (selection "gpt-4o")) (snd (selection "gpt-4o")) (world (demoState false))
  = (Throw "missing credentials", false) /\
  customModel demoSdk demoWrap ["logging"] "gpt-4o" (demoState false)
  = (Throw "missing credentials",
     {| world := false; calls := [Construct OpenAI "gpt-4o"] |}).
Proof.
  split; [reflexivity|].
  exact (proj1 (proj2 (constructor_throw_propagates
                         bool (Provider * string) (list string)
                         (list string * (Provider * string)) string
                         demoSdk demoWrap ["logging"] "gpt-4o" (demoState false)
                         "missing credentials" false eq_refl))).
Defined.

Lemma customModel_empty_identifier_witness :
  demoSdk OpenAI "" (world (demoState true)) = (Normal (OpenAI, ""), true) /\
  customModel demoSdk demoWrap ["logging"] "" (demoState true)
  = (Normal (["logging"], (OpenAI, "")),
     {| world := true;
        calls := [Construct OpenAI "";
                  Wrap {| model := (OpenAI, ""); middleware := ["logging"] |}] |}).
Proof.
  split; [reflexivity|].
  exact (proj2 (proj2 (proj2 (customModel_empty_identifier
                                bool (Provider * string) (list string)
                                (list string * (Provider * string)) string
                                demoSdk demoWrap ["logging"] (demoState true))))
           (OpenAI, "") true eq_refl).
Defined.

(** C5: resolution depends on the identifier alone.  Take two runs on the
    same identifier, from any two states and even against SDKs that behave
    differently: both make the same single constructor call, the one
    [selection] computes from the identifier by trying ["anthropic:"] first,
    ["bedrock:"] second and openai last; and two runs of [customModel] with
    the same middleware begin with that same call. *)
Theorem resolution_is_deterministic
  (World Model Middleware Handle Thrown : Type)
  (sdk1 sdk2 : Provider -> string -> World -> Completion Thrown Model * World)
  (wrap1 wrap2 : Model -> Middleware -> World -> Completion Thrown Handle * World)
  (customMiddleware : Middleware)
  (apiIdentifier : string) (st1 st2 : State World Model Middleware) :
  let resolve sdk :=
    (createProviderModel (anthropic sdk) (bedrock sdk) (openai sdk)
       : string -> M World Model Middleware Thrown Model) in
  let chosen := Construct (fst (selection apiIdentifier)) (snd (selection apiIdentifier)) in
  selection apiIdentifier =
    (if startsWith apiIdentifier "anthropic:"
     then (Anthropic, replace apiIdentifier "anthropic:" "")
     else if startsWith apiIdentifier "bedrock:"
          then (Bedrock, replace apiIdentifier "bedrock:" "")
          else (OpenAI, apiIdentifier)) /\
  callsDuring (resolve sdk1 apiIdentifier) st1 = [chosen] /\
  callsDuring (resolve sdk2 apiIdentifier) st2 = [chosen] /\
  hd_error (callsDuring (customModel sdk1 wrap1 customMiddleware apiIdentifier) st1)
  = Some chosen /\
  hd_error (callsDuring (customModel sdk2 wrap2 customMiddleware apiIdentifier) st2)
  = Some chosen.
Proof.
  intros resolve chosen. subst resolve chosen. unfold callsDuring.
  split; [reflexivity|].
  rewrite !factory_unfold, !resolve_run. simpl snd.
  split; [apply skipn_length_app|]. split; [apply skipn_length_app|].
  split.
  - destruct (sdk1 _ _ (world st1)) as [[m|e] w1]; simpl fst; simpl snd; cbv iota beta.
    + rewrite (proj1 (wrapLanguageModel_calls _ _ _ _ _ wrap1 _ _)).
      simpl calls. rewrite <- app_assoc, skipn_length_app. reflexivity.
    + simpl calls. rewrite skipn_length_app. reflexivity.
  - destruct (sdk2 _ _ (world st2)) as [[m|e] w1]; simpl fst; simpl snd; cbv iota beta.
    + rewrite (proj1 (wrapLanguageModel_calls _ _ _ _ _ wrap2 _ _)).
      simpl calls. rewrite <- app_assoc, skipn_length_app. reflexivity.
    + simpl calls. rewrite skipn_length_app. reflexivity.
Qed.

End Ai.

(* ===================================================================== *)
(** ** The middleware chain *)
(* ===================================================================== *)

Module Chain.

Section Stages.
Variables Params Result Sequence : Type.

(** Modelled from the spec: the callable model object; its code (the
    provider SDKs' model objects) is not among the sources.  It has the
    two operations of the data model: a single-shot generate and a stream
    producing an incremental sequence. *)
Record CallableModelObject : Type := {
  generate : Params -> Result;
  stream : Params -> Sequence
}.

(** Modelled from the spec: the middleware stage; the [customMiddleware]
    module and the stage type of the [ai] package are not among the
    sources.  A stage is a triple of functions, any of which may be absent;
    a wrapper receives the continuation (the rest of the chain with the
    real call) and the call arguments. *)
Record MiddlewareStage : Type := {
  transformParams : option (Params -> Params);
  wrapGenerate : option ((unit -> Result) -> Params -> Result);
  wrapStream : option ((unit -> Sequence) -> Params -> Sequence)
}.

(** Modelled from the spec: one stage's parameter step, missing with the
    chain's code; a stage without [transformParams] passes the parameters
    through unchanged. *)
Definition applyTransform (s : MiddlewareStage) (p : Params) : Params :=
  match transformParams s with
  | Some f => f p
  | None => p
  end.

(** Modelled from the spec: the parameter transformation of the chain,
    missing with the chain's code; the parameters pass through every stage
    in list order, each stage receiving the previous stage's output. *)
Definition transformAll (stages : list MiddlewareStage) (p : Params) : Params :=
  fold_left (fun acc s => applyTransform s acc) stages p.

(** Modelled from the spec: call wrapping, missing with the chain's code;
    stages [S1; ...; Sn] compose to S1.wrap(S2.wrap(...(Sn.wrap(real)))),
    the first stage outermost, and a stage without the wrapper is
    transparent. *)
Fixpoint chain {T : Type}
  (wrapper : MiddlewareStage -> option ((unit -> T) -> Params -> T))
  (stages : list MiddlewareStage) (real : unit -> T) (p : Params) : T :=
  match stages with
  | [] => real tt
  | s :: rest =>
      match wrapper s with
      | Some w => w (fun _ => chain wrapper rest real p) p
      | None => chain wrapper rest real p
      end
  end.

(** Modelled from the spec: [wrap(model, stages)] of the middleware chain
    ([wrapLanguageModel] of the [ai] package, not among the sources).
    Before either operation reaches the innermost model the parameters are
    transformed; the wrappers then run around the real call on the
    transformed parameters. *)
Definition wrap (m : CallableModelObject) (stages : list MiddlewareStage)
  : CallableModelObject :=
  {| generate := fun p =>
       let p' := transformAll stages p in
       chain wrapGenerate stages (fun _ => generate m p') p';
     stream := fun p =>
       let p' := transformAll stages p in
       chain wrapStream stages (fun _ => stream m p') p' |}.

End Stages.

Arguments generate {Params Result Sequence} c.
Arguments stream {Params Result Sequence} c.
Arguments Build_CallableModelObject {Params Result Sequence} generate stream.
Arguments transformParams {Params Result Sequence} m.
Arguments wrapGenerate {Params Result Sequence} m.
Arguments wrapStream {Params Result Sequence} m.
Arguments Build_MiddlewareStage {Params Result Sequence} transformParams wrapGenerate wrapStream.
Arguments applyTransform {Params Result Sequence} s p.
Arguments transformAll {Params Result Sequence} stages p.
Arguments chain {Params Result Sequence T} wrapper stages real p.
Arguments wrap {Params Result Sequence} m stages.

(** A provider that answers with the parameters it was called with, and
    two stages that only rewrite parameters. *)
Definition echo : CallableModelObject (list string) (list string) (list (list string)) :=
  {| generate := fun p => p; stream := fun p => [p] |}.

Definition appending (tag : string)
  : MiddlewareStage (list string) (list string) (list (list string)) :=
  {| transformParams := Some (fun p => p ++ [tag])%list;
     wrapGenerate := None;
     wrapStream := None |}.

(** C6: for a stage list [[A; B]] whose stages both define
    [transformParams], the real provider is called, by generate and by
    stream alike, on [B.transformParams (A.transformParams original)] and on
    nothing else; in general the transformation runs in list order, each
    stage on the previous stage's output, and a stage without
    [transformParams] leaves the parameters as they are. *)
Theorem transformParams_apply_in_list_order
  {Params Result Sequence : Type}
  (m : CallableModelObject Params Result Sequence)
  (A B : MiddlewareStage Params Result Sequence)
  (fA fB : Params -> Params) (original : Params) :
  transformParams A = Some fA ->
  transformParams B = Some fB ->
  transformAll [A; B] original = fB (fA original) /\
  generate (wrap m [A; B]) original
  = chain wrapGenerate [A; B] (fun _ => generate m (fB (fA original))) (fB (fA original)) /\
  stream (wrap m [A; B]) original
  = chain wrapStream [A; B] (fun _ => stream m (fB (fA original))) (fB (fA original)) /\
  (forall (s : MiddlewareStage Params Result Sequence) rest p,
      transformAll (s :: rest) p = transformAll rest (applyTransform s p)) /\
  (forall (s : MiddlewareStage Params Result Sequence) p,
      transformParams s = None -> applyTransform s p = p).
Proof.
  intros HA HB.
  assert (E : transformAll [A; B] original = fB (fA original)).
  { unfold transformAll, applyTransform. simpl. rewrite HA, HB. reflexivity. }
  split; [exact E|].
  split; [unfold wrap; cbn [generate]; cbv zeta; rewrite E; reflexivity|].
  split; [unfold wrap; cbn [stream]; cbv zeta; rewrite E; reflexivity|].
  split.
  - intros s rest p. reflexivity.
  - intros s p Hs. unfold applyTransform. rewrite Hs. reflexivity.
Qed.

Lemma transformParams_apply_in_list_order_witness :
  transformParams (appending "A") = Some (fun p => p ++ ["A"])%list /\
  transformParams (appending "B") = Some (fun p => p ++ ["B"])%list /\
  generate (wrap echo [appending "A"; appending "B"]) ["original"]
  = ["original"; "A"; "B"].
Proof.
  split; [reflexivity|]. split; [reflexivity|].
  exact (proj1 (proj2 (transformParams_apply_in_list_order echo
                         (appending "A") (appending "B")
                         (fun p => p ++ ["A"])%list (fun p => p ++ ["B"])%list
                         ["original"] eq_refl eq_refl))).
Defined.

End Chain.

(* ===================================================================== *)
(** ** lib/utilities/logger.ts *)
(* ===================================================================== *)

Module Logger.
Import JsString.

(** [const enum LogLevel], with DEBUG the most verbose. *)
Inductive LogLevel : Type := NONE | ERROR | WARN | INFO | DEBUG.

Definition levelValue (l : LogLevel) : Z :=
  match l with
  | NONE => 0
  | ERROR => 1
  | WARN => 2
  | INFO => 3
  | DEBUG => 4
  end.

(** [type LogLevelString = 'DEBUG' | 'INFO' | 'WARN' | 'ERROR']. *)
Inductive LogLevelString : Type := STR_DEBUG | STR_INFO | STR_WARN | STR_ERROR.

Definition levelText (l : LogLevelString) : string :=
  match l with
  | STR_DEBUG => "DEBUG"
  | STR_INFO => "INFO"
  | STR_WARN => "WARN"
  | STR_ERROR => "ERROR"
  end.

(** What the module reads when it is loaded: whether [window] is
    undefined, and three variables of [process.env]. *)
Record Env : Type := {
  isServer : bool;
  LOG_LEVEL : option string;
  NEXT_PUBLIC_LOG_LEVEL : option string;
  NODE_ENV : option string
}.

(** An argument of a log call ([any]), with what the formatter reads from
    it: an [Error] gives its message and stack; another value of type
    object gives what [JSON.stringify(arg, null, 2)] does with it, which is
    a text or, for a circular structure and the like, a throw; anything
    else gives its [String(arg)]. *)
#[warning="-register-all"] Inductive LogArg : Type :=
| ErrorArg (message stack : string)
| ObjectArg (json : Completion LogArg string)
| PlainArg (text : string).

Inductive ConsoleMethod : Type :=
| console_debug | console_log | console_warn | console_error.

(** The clock the timestamp is read from and what was written to the
    console so far, oldest line first. *)
Record State (Time : Type) : Type := {
  now : Time;
  console : list (ConsoleMethod * string)
}.

Arguments now {Time} s.
Arguments console {Time} s.
Arguments Build_State {Time} now console.

(** The chalk colour functions the module uses. *)
Record Chalk : Type := {
  gray : string -> string;
  magenta : string -> string;
  blue : string -> string;
  yellow : string -> string;
  red : string -> string;
  cyan : string -> string
}.

Section Module_.
(** Library and platform functions: [String.prototype.toUpperCase], the
    [toLocaleTimeString] rendering of the current time, chalk, and the
    file [getCallerFile] reads off the stack trace. *)
Variable toUpperCase : string -> string.
Variable Time : Type.
Variable toLocaleTimeString : Time -> string.
Variable chalk : Chalk.
Variable callerFile : string.
Variable env : Env.

(** [v?.toUpperCase() === literal]. *)
Definition upperIs (v : option string) (literal : string) : bool :=
  match v with
  | Some s => String.eqb (toUpperCase s) literal
  | None => false
  end.

(** [v === literal] for a possibly undefined [v]. *)
Definition strictIs (v : option string) (literal : string) : bool :=
  match v with
  | Some s => String.eqb s literal
  | None => false
  end.

Definition getLogLevel : LogLevel :=
  if isServer env then
    if upperIs (LOG_LEVEL env) "DEBUG" then DEBUG
    else if upperIs (LOG_LEVEL env) "INFO" then INFO
    else if upperIs (LOG_LEVEL env) "WARN" then WARN
    else if upperIs (LOG_LEVEL env) "ERROR" then ERROR
    else if strictIs (NODE_ENV env) "development" then DEBUG
    else NONE
  else
    if upperIs (NEXT_PUBLIC_LOG_LEVEL env) "DEBUG" then DEBUG
    else if upperIs (NEXT_PUBLIC_LOG_LEVEL env) "INFO" then INFO
    else if upperIs (NEXT_PUBLIC_LOG_LEVEL env) "WARN" then WARN
    else if upperIs (NEXT_PUBLIC_LOG_LEVEL env) "ERROR" then ERROR
    else if strictIs (NODE_ENV env) "development" then DEBUG
    else NONE.

Definition logLevel : LogLevel := getLogLevel.

Definition getTimestamp (st : State Time) : string := toLocaleTimeString (now st).

Definition newline : string := String (Ascii.ascii_of_nat 10) "".

Definition formatArg (arg : LogArg) : Completion LogArg string :=
  match arg with
  | ErrorArg message stack => Normal (message ++ newline ++ stack)
  | ObjectArg json => json
  | PlainArg text => Normal text
  end.

(** [args.map(...)]: left to right, and a throw ends it. *)
Fixpoint formatEach (args : list LogArg) : Completion LogArg (list string) :=
  match args with
  | [] => Normal []
  | arg :: rest =>
      match formatArg arg with
      | Throw e => Throw e
      | Normal text =>
          match formatEach rest with
          | Throw e => Throw e
          | Normal texts => Normal (text :: texts)
          end
      end
  end.

Definition formatArgs (args : list LogArg) : Completion LogArg string :=
  match formatEach args with
  | Normal texts => Normal (join " " texts)
  | Throw e => Throw e
  end.

Definition colorize (text : string) (level : LogLevelString) : string :=
  match level with
  | STR_DEBUG => magenta chalk text
  | STR_INFO => blue chalk text
  | STR_WARN => yellow chalk text
  | STR_ERROR => red chalk text
  end.

Definition formatLogMessage (level : LogLevelString) (context : string)
           (args : list LogArg) (st : State Time) : Completion LogArg string :=
  let timestamp := getTimestamp st in
  match formatArgs args with
  | Throw e => Throw e
  | Normal formattedArgs =>
      Normal (gray chalk timestamp ++ " " ++ colorize ("[" ++ levelText level ++ "]") level
              ++ " " ++ cyan chalk ("[" ++ context ++ "]") ++ " " ++ formattedArgs)
  end.

(** A call of one of the [console] methods: one more line. *)
Definition write (method : ConsoleMethod) (line : string) (st : State Time) : State Time :=
  {| now := now st; console := console st ++ [(method, line)] |}.

(** [console.method(formatLogMessage(level, context, args))]: the message
    is built first, and a throw while building it leaves the console
    untouched. *)
Definition emit (method : ConsoleMethod) (level : LogLevelString) (context : string)
           (args : list LogArg) : Eff.M (State Time) LogArg unit :=
  fun st =>
    match formatLogMessage level context args st with
    | Normal line => (Normal tt, write method line st)
    | Throw e => (Throw e, st)
    end.

(** [a >= b] on the numbers of the enum. *)
Definition atLeast (a b : LogLevel) : bool := (levelValue b <=? levelValue a)%Z.

(** The object [createLogger] returns. *)
Record LoggerObject : Type := {
  debug : list LogArg -> Eff.M (State Time) LogArg unit;
  info : list LogArg -> Eff.M (State Time) LogArg unit;
  warn : list LogArg -> Eff.M (State Time) LogArg unit;
  error : list LogArg -> Eff.M (State Time) LogArg unit
}.

(** [componentName || filePath]: an absent or empty name gives the file. *)
Definition createLogger (componentName : option string) : LoggerObject :=
  let filePath := callerFile in
  let context :=
    match componentName with
    | Some name => if String.eqb name "" then filePath else name
    | None => filePath
    end in
  {| debug := fun args =>
       if atLeast logLevel DEBUG
       then emit console_debug STR_DEBUG context args
       else Eff.ret tt;
     info := fun args =>
       if atLeast logLevel INFO
       then emit console_log STR_INFO context args
       else Eff.ret tt;
     warn := fun args =>
       if atLeast logLevel WARN
       then emit console_warn STR_WARN context args
       else Eff.ret tt;
     error := fun args =>
       if atLeast logLevel ERROR
       then emit console_error STR_ERROR context args
       else Eff.ret tt |}.

End Module_.

Arguments debug {Time} l args.
Arguments info {Time} l args.
Arguments warn {Time} l args.
Arguments error {Time} l args.

(** The four write operations, each with the level it is guarded by and
    the console method it writes with. *)
Inductive Operation : Type := OpDebug | OpInfo | OpWarn | OpError.

Definition severity (op : Operation) : LogLevel :=
  match op with
  | OpDebug => DEBUG
  | OpInfo => INFO
  | OpWarn => WARN
  | OpError => ERROR
  end.

Definition methodOf (op : Operation) : ConsoleMethod :=
  match op with
  | OpDebug => console_debug
  | OpInfo => console_log
  | OpWarn => console_warn
  | OpError => console_error
  end.

Definition run {Time} (l : LoggerObject Time) (op : Operation)
  : list LogArg -> Eff.M (State Time) LogArg unit :=
  match op with
  | OpDebug => debug l
  | OpInfo => info l
  | OpWarn => warn l
  | OpError => error l
  end.

(** The operation wrote to the console. *)
Definition emits {Time} (l : LoggerObject Time) (op : Operation)
           (args : list LogArg) (st : State Time) : Prop :=
  console (snd (run l op args st)) <> console st.

(** Environments for running the statements: a server with
    [LOG_LEVEL=WARN] and one with [LOG_LEVEL=DEBUG], plain text instead of
    colours, and a clock that shows the time it is given. *)
Definition demoEnv : Env :=
  {| isServer := true; LOG_LEVEL := Some "WARN";
     NEXT_PUBLIC_LOG_LEVEL := None; NODE_ENV := Some "production" |}.

Definition verboseEnv : Env :=
  {| isServer := true; LOG_LEVEL := Some "DEBUG";
     NEXT_PUBLIC_LOG_LEVEL := None; NODE_ENV := Some "production" |}.

Definition plainChalk : Chalk :=
  {| gray := fun t => t; magenta := fun t => t; blue := fun t => t;
     yellow := fun t => t; red := fun t => t; cyan := fun t => t |}.

Definition demoLogger : LoggerObject string :=
  createLogger (fun s => s) string (fun t => t) plainChalk "app/page" demoEnv
    (Some "FileUpload").

Definition verboseLogger : LoggerObject string :=
  createLogger (fun s => s) string (fun t => t) plainChalk "app/page" verboseEnv
    (Some "FileUpload").

Definition demoStart : State string := {| now := "12:00:00.000"; console := [] |}.

(** An object that refers to itself: [JSON.stringify] throws a TypeError. *)
Definition circularError : LogArg :=
  ErrorArg "Converting circular structure to JSON"
           "TypeError: Converting circular structure to JSON".

Definition circular : LogArg := ObjectArg (Throw circularError).

Lemma write_changes_console {Time} (method : ConsoleMethod) (line : string)
      (st : State Time) :
  console (write Time method line st) <> console st.
Proof.
  simpl. intros H. apply (f_equal (@length _)) in H.
  rewrite length_app in H. simpl in H. lia.
Qed.

Lemma atLeast_spec (a b : LogLevel) :
  atLeast a b = true <-> (levelValue b <= levelValue a)%Z.
Proof. unfold atLeast. apply Z.leb_le. Qed.

(** Each operation is one guarded [emit]. *)
Lemma run_createLogger toUpperCase Time toLocaleTimeString chalk callerFile env
      componentName (op : Operation) (args : list LogArg) :
  exists level context,
    run (createLogger toUpperCase Time toLocaleTimeString chalk callerFile env
           componentName) op args
    = if atLeast (logLevel toUpperCase env) (severity op)
      then emit Time toLocaleTimeString chalk (methodOf op) level context args
      else Eff.ret tt.
Proof. destruct op; simpl; do 2 eexists; reflexivity. Qed.

(** [emit] writes one line when the arguments format, and throws without
    writing when one of them does not. *)
Lemma emit_cases Time toLocaleTimeString chalk method level context
      (args : list LogArg) (st : State Time) :
  match formatArgs args with
  | Normal _ =>
      exists line,
        emit Time toLocaleTimeString chalk method level context args st
        = (Normal tt, write Time method line st)
  | Throw e =>
      emit Time toLocaleTimeString chalk method level context args st = (Throw e, st)
  end.
Proof.
  unfold emit, formatLogMessage.
  destruct (formatArgs args); [eexists|]; reflexivity.
Qed.

(** Arguments that are all strings always format. *)
Lemma formatArgs_plain (text : string) : formatArgs [PlainArg text] = Normal text.
Proof. reflexivity. Qed.

(** A call on a single string never throws. *)
Lemma run_plain toUpperCase Time toLocaleTimeString chalk callerFile env
      componentName (op : Operation) (text : string) (st : State Time) :
  exists st',
    run (createLogger toUpperCase Time toLocaleTimeString chalk callerFile env
           componentName) op [PlainArg text] st = (Normal tt, st').
Proof.
  destruct (run_createLogger toUpperCase Time toLocaleTimeString chalk callerFile
              env componentName op [PlainArg text]) as [level [context E]].
  rewrite E.
  destruct (atLeast (logLevel toUpperCase env) (severity op)).
  - pose proof (emit_cases Time toLocaleTimeString chalk (methodOf op) level context
                  [PlainArg text] st) as C.
    rewrite formatArgs_plain in C. destruct C as [line C]. eauto.
  - eexists. reflexivity.
Qed.

(** Reaching the threshold is not enough for a line to be written: with
    [LOG_LEVEL=DEBUG] the threshold is above the level of [error], yet
    [error] called on an object that [JSON.stringify] cannot serialise
    throws and writes nothing. *)
Lemma threshold_reached_but_nothing_written :
  ~ (emits verboseLogger OpError [PlainArg "Upload failed"; circular] demoStart
     <-> (levelValue (severity OpError)
          <= levelValue (logLevel (fun s => s) verboseEnv))%Z).
Proof.
  intros [_ H]. apply H; [vm_compute; discriminate | reflexivity].
Qed.

(** C7, amended: each of the four write operations ([debug], [info],
    [warn], [error]) writes if and only if the configured [logLevel] is at
    or above the level of the operation and its arguments can be formatted,
    and then it writes exactly one line with its console method.  When
    formatting an argument throws, an operation at or above the threshold
    throws that value and writes nothing.  Below the threshold the operation
    does nothing, whatever its arguments. *)
Theorem write_operations_respect_threshold
  toUpperCase Time toLocaleTimeString chalk callerFile env componentName
  (op : Operation) (args : list LogArg) (st : State Time) :
  let l := createLogger toUpperCase Time toLocaleTimeString chalk callerFile env
             componentName in
  let threshold := logLevel toUpperCase env in
  ((levelValue threshold < levelValue (severity op))%Z ->
   run l op args st = (Normal tt, st)) /\
  ((levelValue (severity op) <= levelValue threshold)%Z ->
   forall text, formatArgs args = Normal text ->
   exists line, run l op args st = (Normal tt, write Time (methodOf op) line st)) /\
  ((levelValue (severity op) <= levelValue threshold)%Z ->
   forall e, formatArgs args = Throw e -> run l op args st = (Throw e, st)) /\
  (emits l op args st
   <-> (levelValue (severity op) <= levelValue threshold)%Z /\
       exists text, formatArgs args = Normal text).
Proof.
  intros l threshold. subst l threshold. unfold emits.
  destruct (run_createLogger toUpperCase Time toLocaleTimeString chalk callerFile
              env componentName op args) as [level [context E]].
  rewrite E. clear E.
  pose proof (emit_cases Time toLocaleTimeString chalk (methodOf op) level context
                args st) as C.
  destruct (atLeast (logLevel toUpperCase env) (severity op)) eqn:G.
  - apply atLeast_spec in G.
    split; [intros L; lia|].
    destruct (formatArgs args) as [text|e].
    + destruct C as [line C]. rewrite C.
      split; [intros _ t _; exists line; reflexivity|].
      split; [intros _ e' F; discriminate F|].
      split; [intros _; split; [exact G | exists text; reflexivity]
             | intros _; apply write_changes_console].
    + rewrite C.
      split; [intros _ t F; discriminate F|].
      split; [intros _ e' F; injection F as <-; reflexivity|].
      split; [intros N; exfalso; apply N; reflexivity
             | intros [_ [t F]]; discriminate F].
  - assert (N : ~ (levelValue (severity op) <= levelValue (logLevel toUpperCase env))%Z).
    { intros L. apply atLeast_spec in L. congruence. }
    split; [reflexivity|].
    split; [intros L; contradiction|].
    split; [intros L; contradiction|].
    split; [intros W; exfalso; apply W; reflexivity | intros [L _]; contradiction].
Qed.

(** With [LOG_LEVEL=WARN]: [warn] writes its line, [info] writes nothing. *)
Lemma write_operations_respect_threshold_witness :
  (levelValue (severity OpWarn) <= levelValue (logLevel (fun s => s) demoEnv))%Z /\
  formatArgs [PlainArg "No file uploaded"] = Normal "No file uploaded" /\
  (exists line,
      warn demoLogger [PlainArg "No file uploaded"] demoStart
      = (Normal tt, write string console_warn line demoStart)) /\
  (levelValue (logLevel (fun s => s) demoEnv) < levelValue (severity OpInfo))%Z /\
  info demoLogger [circular] demoStart = (Normal tt, demoStart).
Proof.
  assert (Hw : (levelValue (severity OpWarn)
                <= levelValue (logLevel (fun s => s) demoEnv))%Z) by (vm_compute; discriminate).
  assert (Hi : (levelValue (logLevel (fun s => s) demoEnv)
                < levelValue (severity OpInfo))%Z) by reflexivity.
  split; [exact Hw|]. split; [reflexivity|].
  split; [exact (proj1 (proj2 (write_operations_respect_threshold (fun s => s) string
                          (fun t => t) plainChalk "app/page" demoEnv (Some "FileUpload")
                          OpWarn [PlainArg "No file uploaded"] demoStart))
                   Hw "No file uploaded" eq_refl)|].
  split; [exact Hi|].
  exact (proj1 (write_operations_respect_threshold (fun s => s) string
                  (fun t => t) plainChalk "app/page" demoEnv (Some "FileUpload")
                  OpInfo [circular] demoStart) Hi).
Defined.

End Logger.

(* ===================================================================== *)
(** ** The file upload route ([FileSchema], [POST]) *)
(* ===================================================================== *)

Module Upload.
Import JsString.

(** A thrown value is whatever the logger is later handed in a [catch]. *)
Definition Thrown : Type := Logger.LogArg.

Section Route.
Variables Bytes Descriptor Session : Type.

(** A [Blob] coming out of form data (a [File]): its size in bytes, its
    media type, its file name, and what [arrayBuffer()] settles to. *)
Record Blob : Type := {
  size : Z;
  type : string;
  name : string;
  arrayBuffer : Completion Thrown Bytes
}.

(** A value of a [FormData] entry. *)
Inductive FormValue : Type :=
| TextValue (s : string)
| FileValue (b : Blob).

(** [FormData] as its list of entries, in order. *)
Definition FormData : Type := list (string * FormValue).

(** [formData.get(key)]: the first value of that name, or null. *)
Fixpoint get (formData : FormData) (key : string) : option FormValue :=
  match formData with
  | [] => None
  | (k, v) :: rest => if String.eqb k key then Some v else get rest key
  end.

(** [!file] for what [get] returned: null and the empty string are falsy,
    every object is truthy. *)
Definition isFalsy (file : option FormValue) : bool :=
  match file with
  | None => true
  | Some (TextValue s) => String.eqb s ""
  | Some (FileValue _) => false
  end.

(** What the handler reads from the request and from [auth()]. *)
Record Request : Type := {
  auth : Completion Thrown (option Session);
  bodyIsNull : bool;
  formData : Completion Thrown FormData
}.

Inductive Body : Type :=
| JsonError (error : string)
| JsonData (data : Descriptor)
| Text (text : string).

Record Response : Type := { status : Z; body : Body }.

(** [NextResponse.json(body, { status })]; the status defaults to 200. *)
Definition json (b : Body) (init : option Z) : Response :=
  {| status := match init with Some s => s | None => 200%Z end; body := b |}.

Inductive SafeParseResult : Type :=
| Success (file : Blob)
| Failure (messages : list string).

(** The two refinements of [FileSchema]. *)
Definition sizeRefinement (file : Blob) : bool := (size file <=? 5 * 1024 * 1024)%Z.

Definition typeRefinement (file : Blob) : bool :=
  includes ["image/jpeg"; "image/png"] (type file).

(** The issues zod reports for a value that is not a [Blob] after the one
    of [instanceof]; whether the refinements still run on such a value
    depends on the zod version. *)
Variable issuesAfterInstanceof : list string.

(** [FileSchema.safeParse({ file })]: on a [Blob] both refinements run and
    each failing one adds its message. *)
Definition FileSchema_safeParse (file : option FormValue) : SafeParseResult :=
  match file with
  | Some (FileValue b) =>
      let issues :=
        ((if sizeRefinement b then [] else ["File size should be less than 5MB"])
         ++ (if typeRefinement b then [] else ["File type should be JPEG or PNG"]))%list in
      match issues with
      | [] => Success b
      | _ => Failure issues
      end
  | _ => Failure ("Input not instance of Blob" :: issuesAfterInstanceof)
  end.

(** The logger's parameters, and the storage service behind [put]. *)
Variable toUpperCase : string -> string.
Variable Time : Type.
Variable toLocaleTimeString : Time -> string.
Variable chalk : Logger.Chalk.
Variable callerFile : string.
Variable env : Logger.Env.
Variable putImpl : string -> Bytes -> Completion Thrown Descriptor.

(** A call of [put(pathname, body, { access: 'public' })]. *)
Record PutCall : Type := { pathname : string; content : Bytes; access : string }.

Record State : Type := {
  logState : Logger.State Time;
  puts : list PutCall
}.

Definition M : Type -> Type := Eff.M State Thrown.

Definition logger : Logger.LoggerObject Time :=
  Logger.createLogger toUpperCase Time toLocaleTimeString chalk callerFile env
    (Some "FileUpload").

(** A call of a logger operation: it acts on the console only. *)
Definition log (op : Eff.M (Logger.State Time) Thrown unit) : M unit :=
  fun st =>
    let (r, ls) := op (logState st) in
    (r, {| logState := ls; puts := puts st |}).

(** [await] of something that settles to a value or rejects. *)
Definition await {A} (settled : Completion Thrown A) : M A :=
  fun st => (settled, st).

Definition put (pathname : string) (content : Bytes) (access : string) : M Descriptor :=
  fun st =>
    (putImpl pathname content,
     {| logState := logState st;
        puts := puts st ++ [{| pathname := pathname; content := content; access := access |}] |}).

Definition POST (request : Request) : M Response :=
  (session <- await (auth request) ;;
   match session with
   | None =>
       log (Logger.error logger [Logger.PlainArg "Unauthorized access attempt"]) ;;;
       Eff.ret (json (JsonError "Unauthorized") (Some 401%Z))
   | Some _ =>
       if bodyIsNull request then
         log (Logger.warn logger [Logger.PlainArg "Request body is empty"]) ;;;
         Eff.ret {| status := 400; body := Text "Request body is empty" |}
       else
         Eff.tryCatch
           (formData <- await (formData request) ;;
            let file := get formData "file" in
            if isFalsy file then
              log (Logger.warn logger [Logger.PlainArg "No file uploaded"]) ;;;
              Eff.ret (json (JsonError "No file uploaded") (Some 400%Z))
            else
              match FileSchema_safeParse file with
              | Failure messages =>
                  let errorMessage := join "," messages in
                  log (Logger.warn logger
                         [Logger.PlainArg ("File validation failed: " ++ errorMessage)]) ;;;
                  Eff.ret (json (JsonError errorMessage) (Some 400%Z))
              | Success blob =>
                  let filename := name blob in
                  fileBuffer <- await (arrayBuffer blob) ;;
                  Eff.tryCatch
                    (data <- put filename fileBuffer "public" ;;
                     log (Logger.info logger
                            [Logger.PlainArg ("File uploaded successfully: " ++ filename)]) ;;;
                     Eff.ret (json (JsonData data) None))
                    (fun error =>
                       log (Logger.error logger [Logger.PlainArg "Upload failed"; error]) ;;;
                       Eff.ret (json (JsonError "Upload failed") (Some 500%Z)))
              end)
           (fun error =>
              log (Logger.error logger
                     [Logger.PlainArg "Failed to process request"; error]) ;;;
              Eff.ret (json (JsonError "Failed to process request") (Some 500%Z)))
   end)%eff.

(** The blob passes validation: at most 5 * 1024 * 1024 bytes, and of
    type image/jpeg or image/png. *)
Definition passesValidation (b : Blob) : Prop :=
  (size b <= 5 * 1024 * 1024)%Z /\ (type b = "image/jpeg" \/ type b = "image/png").

(** A computation that leaves the storage service alone and does not
    answer with a descriptor. *)
Definition Quiet (m : M Response) : Prop :=
  forall st,
    puts (snd (m st)) = puts st /\
    (forall r, fst (m st) = Normal r -> forall data, body r <> JsonData data).

End Route.

Arguments size {Bytes} b.
Arguments type {Bytes} b.
Arguments name {Bytes} b.
Arguments arrayBuffer {Bytes} b.
Arguments Build_Blob {Bytes} size type name arrayBuffer.
Arguments TextValue {Bytes} s.
Arguments FileValue {Bytes} b.
Arguments get {Bytes} formData key.
Arguments isFalsy {Bytes} file.
Arguments auth {Bytes Session} r.
Arguments bodyIsNull {Bytes Session} r.
Arguments formData {Bytes Session} r.
Arguments Build_Request {Bytes Session} auth bodyIsNull formData.
Arguments JsonError {Descriptor} error.
Arguments JsonData {Descriptor} data.
Arguments Text {Descriptor} text.
Arguments status {Descriptor} r.
Arguments body {Descriptor} r.
Arguments Build_Response {Descriptor} status body.
Arguments json {Descriptor} b init.
Arguments Success {Bytes} file.
Arguments Failure {Bytes} messages.
Arguments sizeRefinement {Bytes} file.
Arguments typeRefinement {Bytes} file.
Arguments FileSchema_safeParse {Bytes} issuesAfterInstanceof file.
Arguments passesValidation {Bytes} b.
Arguments pathname {Bytes} p.
Arguments content {Bytes} p.
Arguments access {Bytes} p.
Arguments Build_PutCall {Bytes} pathname content access.
Arguments logState {Bytes Time} s.
Arguments puts {Bytes Time} s.
Arguments Build_State {Bytes Time} logState puts.
Arguments log {Bytes Time} op.
Arguments await {Bytes Time A} settled.
Arguments put {Bytes Descriptor Time} putImpl pathname content access.
Arguments POST {Bytes Descriptor Session} issuesAfterInstanceof toUpperCase {Time}
  toLocaleTimeString chalk callerFile env putImpl request.
Arguments Quiet {Bytes Descriptor Time} m.

(** A storage service that answers with the URL of the stored file, a
    signed-in user, and the route run with the logger of [Logger.demoEnv]. *)
Definition demoPut (pathname : string) (content : string) : Completion Thrown string :=
  Normal ("https://blob.example/" ++ pathname).

Definition demoPOST (request : Request string string)
  : M string string (Response string) :=
  POST [] (fun s => s) (fun t => t) Logger.plainChalk "app/api/files/upload/route"
    Logger.demoEnv demoPut request.

Definition upload (b : Blob string) : Request string string :=
  {| auth := Normal (Some "user-1");
     bodyIsNull := false;
     formData := Normal [("file", FileValue b)] |}.

Definition png : Blob string :=
  {| size := 2048; type := "image/png"; name := "cat.png";
     arrayBuffer := Normal "PNG-bytes" |}.

Definition gif : Blob string :=
  {| size := 2048; type := "image/gif"; name := "cat.gif";
     arrayBuffer := Normal "GIF-bytes" |}.

Definition hugeGif : Blob string :=
  {| size := 5 * 1024 * 1024 + 1; type := "image/gif"; name := "big.gif";
     arrayBuffer := Normal "GIF-bytes" |}.

Definition start : State string string :=
  {| logState := Logger.demoStart; puts := [] |}.

(** The same route with [LOG_LEVEL=DEBUG] and a storage service that
    rejects with an object [JSON.stringify] cannot serialise. *)
Definition rejectingPOST (request : Request string string)
  : M string string (Response string) :=
  POST [] (fun s => s) (fun t => t) Logger.plainChalk "app/api/files/upload/route"
    Logger.verboseEnv (fun _ _ => Throw Logger.circular) request.

(* --------------------------------------------------------------------- *)
(** *** Facts about the route *)
(* --------------------------------------------------------------------- *)

Section RouteFacts.
Variables Bytes Descriptor Session : Type.
Variable issuesAfterInstanceof : list string.
Variable toUpperCase : string -> string.
Variable Time : Type.
Variable toLocaleTimeString : Time -> string.
Variable chalk : Logger.Chalk.
Variable callerFile : string.
Variable env : Logger.Env.
Variable putImpl : string -> Bytes -> Completion Thrown Descriptor.

Local Abbreviation handler :=
  (POST issuesAfterInstanceof toUpperCase toLocaleTimeString chalk callerFile env putImpl
     : Request Bytes Session -> M Bytes Time (Response Descriptor)).
Local Abbreviation safeParse := (FileSchema_safeParse issuesAfterInstanceof).
Local Abbreviation theLogger :=
  (logger toUpperCase Time toLocaleTimeString chalk callerFile env).

Lemma typeRefinement_spec (b : Blob Bytes) :
  typeRefinement b = true <-> (type b = "image/jpeg" \/ type b = "image/png").
Proof.
  unfold typeRefinement, includes. simpl.
  rewrite !orb_true_iff, !String.eqb_eq. intuition discriminate.
Qed.

Lemma sizeRefinement_spec (b : Blob Bytes) :
  sizeRefinement b = true <-> (size b <= 5 * 1024 * 1024)%Z.
Proof. unfold sizeRefinement. apply Z.leb_le. Qed.

(** The schema accepts exactly the blobs that pass both refinements. *)
Lemma safeParse_Success (file : option (FormValue Bytes)) (b : Blob Bytes) :
  safeParse file = Success b <->
  file = Some (FileValue b) /\ passesValidation b.
Proof.
  unfold FileSchema_safeParse, passesValidation.
  rewrite <- sizeRefinement_spec, <- typeRefinement_spec.
  split.
  - destruct file as [[s|b']|]; try discriminate.
    destruct (sizeRefinement b') eqn:Hs, (typeRefinement b') eqn:Ht; simpl;
      try discriminate.
    intros H. injection H as ->. auto.
  - intros [-> [Hs Ht]]. rewrite Hs, Ht. reflexivity.
Qed.

Lemma bind_await {A B} (settled : Completion Thrown A) (a : A)
      (k : A -> M Bytes Time B) (st : State Bytes Time) :
  settled = Normal a -> Eff.bind (await settled) k st = k a st.
Proof. intros ->. reflexivity. Qed.

Lemma tryCatch_Normal {A} (body : M Bytes Time A) (onError : Thrown -> M Bytes Time A)
      (st st' : State Bytes Time) (a : A) :
  body st = (Normal a, st') -> Eff.tryCatch body onError st = (Normal a, st').
Proof. intros H. unfold Eff.tryCatch. rewrite H. reflexivity. Qed.

(** Logging one string and returning: the response is returned and only
    the console may have changed. *)
Lemma log_plain_ret (op : Logger.Operation) (text : string) (r : Response Descriptor)
      (st : State Bytes Time) :
  exists ls,
    Eff.bind (log (Logger.run theLogger op [Logger.PlainArg text]))
             (fun _ => Eff.ret r) st
    = (Normal r, {| logState := ls; puts := puts st |}).
Proof.
  unfold Eff.bind, log, Eff.ret.
  destruct (Logger.run_plain toUpperCase Time toLocaleTimeString chalk callerFile env
              (Some "FileUpload") op text (logState st)) as [ls E].
  fold theLogger in E. rewrite E. eauto.
Qed.

Lemma quiet_log_ret (op : Eff.M (Logger.State Time) Thrown unit)
      (r : Response Descriptor) :
  (forall data, body r <> JsonData data) ->
  Quiet (Eff.bind (log (Bytes := Bytes) op) (fun _ => Eff.ret r)).
Proof.
  intros Hr st. unfold Eff.bind, log, Eff.ret.
  destruct (op (logState st)) as [[[]|e] ls]; simpl; split; try reflexivity.
  - intros r' H. injection H as <-. exact Hr.
  - intros r' H. discriminate H.
Qed.

Lemma quiet_await {A} (settled : Completion Thrown A)
      (k : A -> M Bytes Time (Response Descriptor)) :
  (forall a, settled = Normal a -> Quiet (k a)) ->
  Quiet (Eff.bind (await settled) k).
Proof.
  intros Hk st. unfold Eff.bind, await.
  destruct settled as [a|e].
  - apply Hk. reflexivity.
  - simpl. split; [reflexivity | intros r H; discriminate H].
Qed.

Lemma quiet_tryCatch (body : M Bytes Time (Response Descriptor))
      (onError : Thrown -> M Bytes Time (Response Descriptor)) :
  Quiet body -> (forall e, Quiet (onError e)) -> Quiet (Eff.tryCatch body onError).
Proof.
  intros Hb Hh st. unfold Eff.tryCatch.
  specialize (Hb st). destruct (body st) as [[r|e] st']; simpl in *.
  - exact Hb.
  - destruct Hb as [Hp _]. destruct (Hh e st') as [Hp' Hr'].
    split; [congruence | exact Hr'].
Qed.

(** Without a valid blob in the request, the whole handler is quiet. *)
Lemma POST_quiet (request : Request Bytes Session) :
  (forall fd b, formData request = Normal fd ->
                get fd "file" = Some (FileValue b) -> ~ passesValidation b) ->
  Quiet (handler request).
Proof.
  intros Hv. unfold POST.
  apply quiet_await. intros [session|] _.
  2: { apply quiet_log_ret. intros data H. discriminate H. }
  destruct (bodyIsNull request).
  { apply quiet_log_ret. intros data H. discriminate H. }
  apply quiet_tryCatch.
  2: { intros e. apply quiet_log_ret. intros data H. discriminate H. }
  apply quiet_await. intros fd Hfd. cbv zeta.
  destruct (isFalsy (get fd "file")).
  { apply quiet_log_ret. intros data H. discriminate H. }
  destruct (safeParse (get fd "file")) as [b|messages] eqn:P.
  - apply safeParse_Success in P. destruct P as [G V].
    exfalso. exact (Hv fd b Hfd G V).
  - apply quiet_log_ret. intros data H. discriminate H.
Qed.

(** C8: [POST] calls the storage service, and answers with the storage
    descriptor, only for a request whose [file] entry is a blob that passes
    validation (at most 5 * 1024 * 1024 bytes, of type image/jpeg or
    image/png).  For an authenticated request with a body whose form data
    holds no such blob, the answer is an error response of status 400 and
    the storage service is not called.  For one that holds such a blob,
    whose bytes can be read and which the storage service accepts, the blob
    is stored under its file name and the answer is the descriptor, with
    status 200. *)
Theorem POST_stores_only_validated_blobs
  (request : Request Bytes Session) (st : State Bytes Time) :
  ((puts (snd (handler request st)) <> puts st \/
    (exists r data, fst (handler request st) = Normal r /\ body r = JsonData data)) ->
   exists fd b,
     formData request = Normal fd /\ get fd "file" = Some (FileValue b) /\
     passesValidation b) /\
  (forall session fd,
      auth request = Normal (Some session) ->
      bodyIsNull request = false ->
      formData request = Normal fd ->
      (forall b, get fd "file" = Some (FileValue b) -> ~ passesValidation b) ->
      exists error,
        fst (handler request st) = Normal (json (JsonError error) (Some 400%Z)) /\
        puts (snd (handler request st)) = puts st) /\
  (forall session fd b bytes data,
      auth request = Normal (Some session) ->
      bodyIsNull request = false ->
      formData request = Normal fd ->
      get fd "file" = Some (FileValue b) ->
      passesValidation b ->
      arrayBuffer b = Normal bytes ->
      putImpl (name b) bytes = Normal data ->
      fst (handler request st) = Normal {| status := 200; body := JsonData data |} /\
      puts (snd (handler request st))
      = (puts st ++ [{| pathname := name b; content := bytes; access := "public" |}])%list).
Proof.
  split; [|split].
  - intros H.
    assert (stays : Quiet (handler request) -> False).
    { intros Q. destruct (Q st) as [Hp Hr].
      destruct H as [H | [r [data [H1 H2]]]]; [exact (H Hp) | exact (Hr r H1 data H2)]. }
    destruct (formData request) as [fd|e] eqn:F.
    + destruct (safeParse (get fd "file")) as [b|messages] eqn:P.
      * apply safeParse_Success in P. exists fd, b. tauto.
      * exfalso. apply stays, POST_quiet. intros fd' b' E G V.
        rewrite F in E. injection E as <-.
        assert (S : safeParse (get fd "file") = Success b')
          by (apply safeParse_Success; auto).
        congruence.
    + exfalso. apply stays, POST_quiet. intros fd' b' E. rewrite F in E. discriminate E.
  - intros session fd Ha Hb Hf Hv.
    unfold POST. rewrite (bind_await _ _ _ _ Ha), Hb.
    match goal with
    | |- context [Eff.tryCatch ?body ?onError st] =>
        assert (B : exists error ls,
                   body st = (Normal (json (JsonError error) (Some 400%Z)),
                              {| logState := ls; puts := puts st |}))
    end.
    { rewrite (bind_await _ _ _ _ Hf). cbv zeta.
      destruct (isFalsy (get fd "file")).
      - destruct (log_plain_ret Logger.OpWarn "No file uploaded"
                    (json (JsonError "No file uploaded") (Some 400%Z)) st) as [ls E].
        exists "No file uploaded", ls. exact E.
      - destruct (safeParse (get fd "file")) as [b|messages] eqn:P.
        + apply safeParse_Success in P. destruct P as [G V].
          exfalso. exact (Hv b G V).
        + destruct (log_plain_ret Logger.OpWarn
                      ("File validation failed: " ++ join "," messages)
                      (json (JsonError (join "," messages)) (Some 400%Z)) st) as [ls E].
          exists (join "," messages), ls. exact E. }
    destruct B as [error [ls B]].
    rewrite (tryCatch_Normal _ _ _ _ _ B). exists error. simpl. auto.
  - intros session fd b bytes data Ha Hb Hf Hg Hv Hbytes Hput.
    unfold POST. rewrite (bind_await _ _ _ _ Ha), Hb.
    match goal with
    | |- context [Eff.tryCatch ?body ?onError st] =>
        assert (B : exists ls,
                   body st
                   = (Normal (json (JsonData data) None),
                      {| logState := ls;
                         puts := puts st ++ [{| pathname := name b; content := bytes;
                                                access := "public" |}] |}))
    end.
    { rewrite (bind_await _ _ _ _ Hf). cbv zeta. rewrite Hg.
      change (isFalsy (Some (FileValue b))) with false. cbv iota.
      rewrite (proj2 (safeParse_Success (Some (FileValue b)) b) (conj eq_refl Hv)).
      cbv iota zeta beta. rewrite (bind_await _ _ _ _ Hbytes).
      destruct (log_plain_ret Logger.OpInfo
                  ("File uploaded successfully: " ++ name b)
                  (json (JsonData data) None)
                  {| logState := logState st;
                     puts := puts st ++ [{| pathname := name b; content := bytes;
                                            access := "public" |}] |}) as [ls E].
      exists ls. apply tryCatch_Normal.
      unfold Eff.bind at 1. unfold put. rewrite Hput. exact E. }
    destruct B as [ls B].
    rewrite (tryCatch_Normal _ _ _ _ _ B). simpl. auto.
Qed.

End RouteFacts.

(** A valid upload is stored and answered with the descriptor; the info
    line is below the WARN threshold, so nothing is logged. *)
Example POST_png :
  demoPOST (upload png) start
  = (Normal {| status := 200; body := JsonData "https://blob.example/cat.png" |},
     {| logState := Logger.demoStart;
        puts := [{| pathname := "cat.png"; content := "PNG-bytes"; access := "public" |}] |}).
Proof. reflexivity. Qed.

(** Both refinements fail: both messages, joined by a comma, status 400,
    one warning, nothing stored. *)
Example POST_hugeGif :
  demoPOST (upload hugeGif) start
  = (Normal {| status := 400;
               body := JsonError "File size should be less than 5MB,File type should be JPEG or PNG" |},
     {| logState :=
          {| Logger.now := "12:00:00.000";
             Logger.console :=
               [(Logger.console_warn,
                 "12:00:00.000 [WARN] [FileUpload] File validation failed: File size should be less than 5MB,File type should be JPEG or PNG")] |};
        puts := [] |}).
Proof. reflexivity. Qed.

(** Without a session the answer is 401, before anything is read. *)
Example POST_unauthorized :
  fst (demoPOST {| auth := Normal None; bodyIsNull := false;
                   formData := Normal [("file", FileValue png)] |} start)
  = Normal {| status := 401; body := JsonError "Unauthorized" |}.
Proof. reflexivity. Qed.

(** The storage service rejects with a circular object: logging it in the
    inner handler throws, the outer handler catches that TypeError and logs
    it, and the answer is the outer 500. *)
Example POST_rejected_put :
  rejectingPOST (upload png) start
  = (Normal {| status := 500; body := JsonError "Failed to process request" |},
     {| logState :=
          {| Logger.now := "12:00:00.000";
             Logger.console :=
               [(Logger.console_error,
                 "12:00:00.000 [ERROR] [FileUpload] Failed to process request Converting circular structure to JSON"
                 ++ Logger.newline ++ "TypeError: Converting circular structure to JSON")] |};
        puts := [{| pathname := "cat.png"; content := "PNG-bytes"; access := "public" |}] |}).
Proof. reflexivity. Qed.

Lemma POST_stores_only_validated_blobs_witness :
  auth (upload gif) = Normal (Some "user-1") /\
  bodyIsNull (upload gif) = false /\
  formData (upload gif) = Normal [("file", FileValue gif)] /\
  (forall b, get [("file", FileValue gif)] "file" = Some (FileValue b) ->
             ~ passesValidation b) /\
  exists error,
    fst (demoPOST (upload gif) start) = Normal (json (JsonError error) (Some 400%Z)) /\
    puts (snd (demoPOST (upload gif) start)) = puts start.
Proof.
  assert (Hv : forall b : Blob string,
             get [("file", FileValue gif)] "file" = Some (FileValue b) ->
             ~ passesValidation b).
  { intros b H. injection H as <-. intros [_ [T|T]]; discriminate T. }
  split; [reflexivity|]. split; [reflexivity|]. split; [reflexivity|].
  split; [exact Hv|].
  exact (proj1 (proj2 (POST_stores_only_validated_blobs string string string []
                         (fun s => s) string (fun t => t) Logger.plainChalk
                         "app/api/files/upload/route" Logger.demoEnv demoPut
                         (upload gif) start))
           "user-1" [("file", FileValue gif)] eq_refl eq_refl eq_refl Hv).
Defined.

End Upload.

(* ===================================================================== *)
(** ** lib/ai/models.ts *)
(* ===================================================================== *)

Module Models.

Record Model : Type := {
  id : string;
  label : string;
  apiIdentifier : string;
  description : string
}.

Definition models : list Model :=
  [ {| id := "bedrock:anthropic.claude-3-haiku-20240307-v1:0";
       label := "Bedrock - Claude 3 Haiku";
       apiIdentifier := "bedrock:anthropic.claude-3-haiku-20240307-v1:0";
       description := "Anthropic Claude on Amazon Bedrock with Haiku 3 variant" |};
    {| id := "bedrock:anthropic.claude-3-5-haiku-20241022-v1:0";
       label := "Bedrock - Claude 3.5 Haiku";
       apiIdentifier := "bedrock:anthropic.claude-3-5-haiku-20241022-v1:0";
       description := "Anthropic Claude on Amazon Bedrock with Haiku 3.5 variant" |};
    {| id := "bedrock:anthropic.claude-3-5-sonnet-20241022-v2:0";
       label := "Bedrock - Claude 3.5 Sonnet V2";
       apiIdentifier := "bedrock:anthropic.claude-3-5-sonnet-20241022-v2:0";
       description := "Anthropic Claude on Amazon Bedrock with Sonnet variant" |};
    {| id := "gpt-4o-mini";
       label := "OpenAI - GPT 4o mini";
       apiIdentifier := "gpt-4o-mini";
       description := "Small model for fast, lightweight tasks" |};
    {| id := "gpt-4o";
       label := "OpenAI - GPT 4o";
       apiIdentifier := "gpt-4o";
       description := "For complex, multi-step tasks" |};
    {| id := "anthropic:claude-3-5-haiku-20241022";
       label := "Anthropic - Claude 3.5 Haiku";
       apiIdentifier := "anthropic:claude-3-5-haiku-20241022";
       description := "Anthropic’s faster Claude model for simpler tasks" |};
    {| id := "anthropic:claude-3-5-sonnet-20241022";
       label := "Anthropic - Claude 3.5 Sonnet V2)";
       apiIdentifier := "anthropic:claude-3-5-sonnet-20241022";
       description := "Anthropic’s advanced Claude model for complex tasks" |} ].

Definition DEFAULT_MODEL_NAME : string := "gpt-4o-mini".

(** The constructor call each catalog entry resolves to. *)
Example catalog_selections :
  map (fun m => Ai.selection (apiIdentifier m)) models
  = [ (Ai.Bedrock, "anthropic.claude-3-haiku-20240307-v1:0");
      (Ai.Bedrock, "anthropic.claude-3-5-haiku-20241022-v1:0");
      (Ai.Bedrock, "anthropic.claude-3-5-sonnet-20241022-v2:0");
      (Ai.OpenAI, "gpt-4o-mini");
      (Ai.OpenAI, "gpt-4o");
      (Ai.Anthropic, "claude-3-5-haiku-20241022");
      (Ai.Anthropic, "claude-3-5-sonnet-20241022") ].
Proof. reflexivity. Qed.

(** C10: in the catalog every entry's [id] equals its [apiIdentifier], the
    ids are pairwise distinct, and [DEFAULT_MODEL_NAME], which is
    ["gpt-4o-mini"], is the id of an entry. *)
Theorem catalog_is_consistent :
  Forall (fun m => id m = apiIdentifier m) models /\
  NoDup (map id models) /\
  DEFAULT_MODEL_NAME = "gpt-4o-mini" /\
  In DEFAULT_MODEL_NAME (map id models).
Proof.
  split; [repeat constructor|].
  split.
  - simpl. repeat (constructor; [simpl; intuition discriminate|]). constructor.
  - split; [reflexivity|]. simpl. tauto.
Qed.

End Models.

(* ===================================================================== *)
(** ** Further properties of lib/ai/index.ts *)
(* ===================================================================== *)

Module AiMore.
Import JsString Ai.

(** The literal each branch of [createProviderModel] tests for; the
    fallback branch tests for nothing. *)
Definition namespaceTag (p : Provider) : string :=
  match p with
  | Anthropic => "anthropic:"
  | Bedrock => "bedrock:"
  | OpenAI => ""
  end.

(** A [wrapLanguageModel] that always throws. *)
Definition brokenWrap (m : Provider * string) (mw : list string) (credentials : bool)
  : Completion string (list string * (Provider * string)) * bool :=
  (Throw "invalid middleware", credentials).

Lemma selection_cases (apiIdentifier : string) :
  (startsWith apiIdentifier "anthropic:" = true /\
   selection apiIdentifier = (Anthropic, slice 10 apiIdentifier)) \/
  (startsWith apiIdentifier "anthropic:" = false /\
   startsWith apiIdentifier "bedrock:" = true /\
   selection apiIdentifier = (Bedrock, slice 8 apiIdentifier)) \/
  (startsWith apiIdentifier "anthropic:" = false /\
   startsWith apiIdentifier "bedrock:" = false /\
   selection apiIdentifier = (OpenAI, apiIdentifier)).
Proof.
  unfold selection, createProviderModel.
  destruct (startsWith apiIdentifier "anthropic:") eqn:Ha.
  - left. split; [reflexivity|].
    rewrite (startsWith_split _ _ Ha) at 1. rewrite replace_leading. reflexivity.
  - right. destruct (startsWith apiIdentifier "bedrock:") eqn:Hb.
    + left. repeat split.
      rewrite (startsWith_split _ _ Hb) at 1. rewrite replace_leading. reflexivity.
    + right. auto.
Qed.

(** X1: resolution loses nothing of the identifier: the tag of the
    provider that was selected, followed by the name its constructor
    received, is the identifier again. *)
Theorem selection_rebuilds_identifier (apiIdentifier : string) :
  namespaceTag (fst (selection apiIdentifier)) ++ snd (selection apiIdentifier)
  = apiIdentifier.
Proof.
  destruct (selection_cases apiIdentifier) as [[Ha E] | [[_ [Hb E]] | [_ [_ E]]]];
    rewrite E; simpl fst; simpl snd; simpl namespaceTag.
  - symmetry. exact (startsWith_split _ _ Ha).
  - symmetry. exact (startsWith_split _ _ Hb).
  - reflexivity.
Qed.

(** X2: the provider is decided by the prefix and by nothing else: the
    anthropic constructor is called exactly for the identifiers that start
    with ["anthropic:"], the bedrock constructor exactly for those that
    start with ["bedrock:"], and the openai constructor exactly for the
    rest.  In particular no identifier reaches two constructors. *)
Theorem provider_iff_prefix (apiIdentifier : string) :
  (fst (selection apiIdentifier) = Anthropic
   <-> startsWith apiIdentifier "anthropic:" = true) /\
  (fst (selection apiIdentifier) = Bedrock
   <-> startsWith apiIdentifier "bedrock:" = true) /\
  (fst (selection apiIdentifier) = OpenAI
   <-> startsWith apiIdentifier "anthropic:" = false /\
       startsWith apiIdentifier "bedrock:" = false).
Proof.
  destruct (selection_cases apiIdentifier) as [[Ha E] | [[Ha [Hb E]] | [Ha [Hb E]]]];
    rewrite E; simpl fst.
  - assert (Hb : startsWith apiIdentifier "bedrock:" = false).
    { rewrite (startsWith_split _ _ Ha). reflexivity. }
    rewrite Ha, Hb. repeat split; intros; try discriminate; try tauto.
    destruct H; discriminate.
  - rewrite Ha, Hb. repeat split; intros; try discriminate; try tauto.
    destruct H; discriminate.
  - rewrite Ha, Hb. repeat split; intros; try discriminate; try tauto.
Qed.

Section WrapFailure.
Variables World Model Middleware Handle Thrown : Type.
Variable sdk : Provider -> string -> World -> Completion Thrown Model * World.
Variable wrapImpl : Model -> Middleware -> World -> Completion Thrown Handle * World.
Variable customMiddleware : Middleware.

(** X3: a throw of [wrapLanguageModel] is not caught either: when the
    constructor returns a model and wrapping it throws, [customModel]
    throws that same value, after exactly the constructor call and the
    wrap call. *)
Theorem wrap_throw_propagates
  (apiIdentifier : string) (st : State World Model Middleware)
  (m : Model) (e : Thrown) (w1 w2 : World) :
  sdk (fst (selection apiIdentifier)) (snd (selection apiIdentifier)) (world st)
  = (Normal m, w1) ->
  wrapImpl m customMiddleware w1 = (Throw e, w2) ->
  customModel sdk wrapImpl customMiddleware apiIdentifier st
  = (Throw e,
     {| world := w2;
        calls := (calls st
                  ++ [Construct (fst (selection apiIdentifier)) (snd (selection apiIdentifier));
                      Wrap {| model := m; middleware := customMiddleware |}])%list |}).
Proof.
  intros Hc Hw.
  rewrite factory_unfold, resolve_run, Hc. simpl.
  unfold wrapLanguageModel. simpl. rewrite Hw.
  rewrite <- app_assoc. reflexivity.
Qed.

End WrapFailure.

Lemma wrap_throw_propagates_witness :
  demoSdk (fst (selection "gpt-4o")) (snd (selection "gpt-4o")) (world (demoState true))
  = (Normal (OpenAI, "gpt-4o"), true) /\
  brokenWrap (OpenAI, "gpt-4o") ["logging"] true = (Throw "invalid middleware", true) /\
  customModel demoSdk brokenWrap ["logging"] "gpt-4o" (demoState true)
  = (Throw "invalid middleware",
     {| world := true;
        calls := [Construct OpenAI "gpt-4o";
                  Wrap {| model := (OpenAI, "gpt-4o"); middleware := ["logging"] |}] |}).
Proof.
  split; [reflexivity|]. split; [reflexivity|].
  exact (wrap_throw_propagates bool (Provider * string) (list string)
           (list string * (Provider * string)) string
           demoSdk brokenWrap ["logging"] "gpt-4o" (demoState true)
           (OpenAI, "gpt-4o") "invalid middleware" true true eq_refl eq_refl).
Defined.

End AiMore.

(* ===================================================================== *)
(** ** Further properties of lib/ai/models.ts *)
(* ===================================================================== *)

Module ModelsMore.
Import JsString Models.

(** How the labels of the catalog name a provider. *)
Definition labelPrefix (p : Ai.Provider) : string :=
  match p with
  | Ai.Anthropic => "Anthropic - "
  | Ai.Bedrock => "Bedrock - "
  | Ai.OpenAI => "OpenAI - "
  end.

(** X4: the catalog and the resolver agree: every entry's label begins
    with the provider its [apiIdentifier] resolves to, no entry resolves to
    an empty backend name, and [DEFAULT_MODEL_NAME] resolves to the openai
    constructor with the name unchanged. *)
Theorem catalog_labels_match_resolution :
  Forall (fun m =>
            startsWith (label m) (labelPrefix (fst (Ai.selection (apiIdentifier m)))) = true /\
            snd (Ai.selection (apiIdentifier m)) <> "")
         models /\
  Ai.selection DEFAULT_MODEL_NAME = (Ai.OpenAI, DEFAULT_MODEL_NAME).
Proof.
  split; [|reflexivity].
  repeat constructor; discriminate.
Qed.

End ModelsMore.

(* ===================================================================== *)
(** ** Further properties of lib/utilities/logger.ts *)
(* ===================================================================== *)

Module LoggerMore.
Import JsString Logger.

(** The variable [getLogLevel] reads the level from: [LOG_LEVEL] on the
    server, [NEXT_PUBLIC_LOG_LEVEL] in the browser. *)
Definition levelVariable (env : Env) : option string :=
  if isServer env then LOG_LEVEL env else NEXT_PUBLIC_LOG_LEVEL env.

(** The spelling of a level in the environment. *)
Definition levelName (l : LogLevel) : string :=
  match l with
  | NONE => "NONE"
  | ERROR => "ERROR"
  | WARN => "WARN"
  | INFO => "INFO"
  | DEBUG => "DEBUG"
  end.

(** The argument can be formatted. *)
Definition Formattable (arg : LogArg) : Prop := exists text, formatArg arg = Normal text.

(** A development server on which somebody tried [LOG_LEVEL=none]. *)
Definition noneInDevelopment : Env :=
  {| isServer := true; LOG_LEVEL := Some "NONE";
     NEXT_PUBLIC_LOG_LEVEL := None; NODE_ENV := Some "development" |}.

Section Level.
Variable toUpperCase : string -> string.

Lemma getLogLevel_by_variable (env : Env) :
  getLogLevel toUpperCase env =
  if upperIs toUpperCase (levelVariable env) "DEBUG" then DEBUG
  else if upperIs toUpperCase (levelVariable env) "INFO" then INFO
  else if upperIs toUpperCase (levelVariable env) "WARN" then WARN
  else if upperIs toUpperCase (levelVariable env) "ERROR" then ERROR
  else if strictIs (NODE_ENV env) "development" then DEBUG
  else NONE.
Proof. unfold getLogLevel, levelVariable. destruct (isServer env); reflexivity. Qed.

Lemma upperIs_exclusive (v : option string) (a b : string) :
  upperIs toUpperCase v a = true -> a <> b -> upperIs toUpperCase v b = false.
Proof.
  unfold upperIs. destruct v as [s|]; [|discriminate].
  intros Ha Hab. apply String.eqb_eq in Ha. apply String.eqb_neq. congruence.
Qed.

(** X5: a level named in the environment wins.  When the level variable
    ([LOG_LEVEL] on the server, [NEXT_PUBLIC_LOG_LEVEL] in the browser)
    upper-cases to DEBUG, INFO, WARN or ERROR, that is the log level,
    whatever [NODE_ENV] and the other variable hold. *)
Theorem named_level_wins (env : Env) (l : LogLevel) :
  l <> NONE ->
  upperIs toUpperCase (levelVariable env) (levelName l) = true ->
  getLogLevel toUpperCase env = l.
Proof.
  intros Hl H. rewrite getLogLevel_by_variable.
  destruct l; [contradiction| | | |]; simpl levelName in H.
  - rewrite (upperIs_exclusive _ _ "DEBUG" H), (upperIs_exclusive _ _ "INFO" H),
      (upperIs_exclusive _ _ "WARN" H), H by discriminate. reflexivity.
  - rewrite (upperIs_exclusive _ _ "DEBUG" H), (upperIs_exclusive _ _ "INFO" H), H
      by discriminate. reflexivity.
  - rewrite (upperIs_exclusive _ _ "DEBUG" H), H by discriminate. reflexivity.
  - rewrite H. reflexivity.
Qed.

(** X6: logging is off exactly when the level variable names none of the
    four levels and [NODE_ENV] is not ["development"].  In development the
    level is never NONE; a variable that names no level, the string NONE
    included, there gives DEBUG. *)
Theorem silent_iff_unnamed_outside_development (env : Env) :
  (getLogLevel toUpperCase env = NONE <->
   strictIs (NODE_ENV env) "development" = false /\
   forall l, l <> NONE -> upperIs toUpperCase (levelVariable env) (levelName l) = false) /\
  (NODE_ENV env = Some "development" ->
   getLogLevel toUpperCase env <> NONE /\
   ((forall l, l <> NONE -> upperIs toUpperCase (levelVariable env) (levelName l) = false) ->
    getLogLevel toUpperCase env = DEBUG)).
Proof.
  rewrite getLogLevel_by_variable.
  split.
  - split.
    + intros H.
      destruct (upperIs toUpperCase (levelVariable env) "DEBUG") eqn:D; [discriminate|].
      destruct (upperIs toUpperCase (levelVariable env) "INFO") eqn:I; [discriminate|].
      destruct (upperIs toUpperCase (levelVariable env) "WARN") eqn:W; [discriminate|].
      destruct (upperIs toUpperCase (levelVariable env) "ERROR") eqn:E; [discriminate|].
      destruct (strictIs (NODE_ENV env) "development"); [discriminate|].
      split; [reflexivity|]. intros [] Hl; simpl; auto. contradiction.
    + intros [Hd Hn].
      pose proof (Hn DEBUG ltac:(discriminate)) as D.
      pose proof (Hn INFO ltac:(discriminate)) as I.
      pose proof (Hn WARN ltac:(discriminate)) as W.
      pose proof (Hn ERROR ltac:(discriminate)) as E.
      simpl levelName in D, I, W, E. rewrite D, I, W, E, Hd. reflexivity.
  - intros Hdev. unfold strictIs. rewrite Hdev. simpl.
    split.
    + destruct (upperIs toUpperCase (levelVariable env) "DEBUG");
        destruct (upperIs toUpperCase (levelVariable env) "INFO");
        destruct (upperIs toUpperCase (levelVariable env) "WARN");
        destruct (upperIs toUpperCase (levelVariable env) "ERROR"); discriminate.
    + intros Hn.
      pose proof (Hn DEBUG ltac:(discriminate)) as D.
      pose proof (Hn INFO ltac:(discriminate)) as I.
      pose proof (Hn WARN ltac:(discriminate)) as W.
      pose proof (Hn ERROR ltac:(discriminate)) as E.
      simpl levelName in D, I, W, E. rewrite D, I, W, E. reflexivity.
Qed.

End Level.

Lemma named_level_wins_witness :
  WARN <> NONE /\
  upperIs (fun s => s) (levelVariable demoEnv) (levelName WARN) = true /\
  getLogLevel (fun s => s) demoEnv = WARN.
Proof.
  assert (H : WARN <> NONE) by discriminate.
  split; [exact H|]. split; [reflexivity|].
  exact (named_level_wins (fun s => s) demoEnv WARN H eq_refl).
Defined.

Lemma silent_iff_unnamed_outside_development_witness :
  NODE_ENV noneInDevelopment = Some "development" /\
  (forall l, l <> NONE ->
             upperIs (fun s => s) (levelVariable noneInDevelopment) (levelName l) = false) /\
  getLogLevel (fun s => s) noneInDevelopment = DEBUG.
Proof.
  assert (H : forall l, l <> NONE ->
                        upperIs (fun s => s) (levelVariable noneInDevelopment) (levelName l)
                        = false).
  { intros [] Hl; try reflexivity. contradiction. }
  split; [reflexivity|]. split; [exact H|].
  exact (proj2 (proj2 (silent_iff_unnamed_outside_development (fun s => s) noneInDevelopment)
                  eq_refl) H).
Defined.

(* --------------------------------------------------------------------- *)
(** *** Formatting and the write operations *)
(* --------------------------------------------------------------------- *)

Lemma formatEach_all (args : list LogArg) (texts : list string) :
  Forall2 (fun arg text => formatArg arg = Normal text) args texts ->
  formatEach args = Normal texts.
Proof.
  induction 1 as [|arg text args texts H _ IH]; simpl.
  - reflexivity.
  - rewrite H, IH. reflexivity.
Qed.

Lemma formatEach_first_failure (pre post : list LogArg) (arg e : LogArg) :
  Forall Formattable pre -> formatArg arg = Throw e ->
  formatEach (pre ++ arg :: post) = Throw e.
Proof.
  intros Hpre Harg. induction Hpre as [|a pre [text Ha] _ IH]; simpl.
  - rewrite Harg. reflexivity.
  - rewrite Ha, IH. reflexivity.
Qed.

(** X7: the arguments are formatted from left to right and joined by one
    space; when some argument cannot be formatted, the call throws what the
    first such argument threw, whatever comes after it. *)
Theorem formatArgs_joins_or_throws_first :
  (forall args texts,
      Forall2 (fun arg text => formatArg arg = Normal text) args texts ->
      formatArgs args = Normal (join " " texts)) /\
  (forall pre arg post e,
      Forall Formattable pre -> formatArg arg = Throw e ->
      formatArgs (pre ++ arg :: post) = Throw e).
Proof.
  split.
  - intros args texts H. unfold formatArgs. rewrite (formatEach_all _ _ H). reflexivity.
  - intros pre arg post e Hpre Harg. unfold formatArgs.
    rewrite (formatEach_first_failure _ _ _ _ Hpre Harg). reflexivity.
Qed.

Lemma formatArgs_joins_or_throws_first_witness :
  Forall Formattable [PlainArg "Upload failed"] /\
  formatArg circular = Throw circularError /\
  formatArgs ([PlainArg "Upload failed"] ++ circular :: [ObjectArg (Throw (PlainArg "later"))])
  = Throw circularError.
Proof.
  assert (H : Forall Formattable [PlainArg "Upload failed"]).
  { constructor; [exists "Upload failed"; reflexivity | constructor]. }
  split; [exact H|]. split; [reflexivity|].
  exact (proj2 formatArgs_joins_or_throws_first [PlainArg "Upload failed"] circular
           [ObjectArg (Throw (PlainArg "later"))] circularError H eq_refl).
Defined.

Section Operations.
Variable toUpperCase : string -> string.
Variable Time : Type.
Variable toLocaleTimeString : Time -> string.
Variable chalk : Chalk.
Variable callerFile : string.
Variable env : Env.
Variable componentName : option string.

Local Abbreviation theLogger :=
  (createLogger toUpperCase Time toLocaleTimeString chalk callerFile env componentName).
Local Abbreviation threshold := (logLevel toUpperCase env).

(** What a write operation does, by threshold and by formatting. *)
Lemma run_outcome (op : Operation) (args : list LogArg) (st : State Time) :
  exists line,
    run theLogger op args st =
    if atLeast threshold (severity op) then
      match formatArgs args with
      | Normal _ => (Normal tt, write Time (methodOf op) line st)
      | Throw e => (Throw e, st)
      end
    else (Normal tt, st).
Proof.
  destruct (run_createLogger toUpperCase Time toLocaleTimeString chalk callerFile
              env componentName op args) as [level [context E]].
  rewrite E.
  pose proof (emit_cases Time toLocaleTimeString chalk (methodOf op) level context
                args st) as C.
  destruct (atLeast threshold (severity op)).
  - destruct (formatArgs args) as [text|e].
    + destruct C as [line C]. exists line. exact C.
    + exists "". exact C.
  - exists "". reflexivity.
Qed.

(** An operation that is below the threshold, or whose arguments format,
    returns normally. *)
Lemma run_returns (op : Operation) (args : list LogArg) (st : State Time) :
  atLeast threshold (severity op) = false \/ (exists text, formatArgs args = Normal text) ->
  exists st', run theLogger op args st = (Normal tt, st').
Proof.
  intros H. destruct (run_outcome op args st) as [line E]. rewrite E.
  destruct (atLeast threshold (severity op)); [|eauto].
  destruct H as [H|[text H]]; [discriminate|]. rewrite H. eauto.
Qed.

(** An operation at or above the threshold whose arguments do not format
    throws and leaves the console alone. *)
Lemma run_throws (op : Operation) (args : list LogArg) (e : LogArg) (st : State Time) :
  atLeast threshold (severity op) = true -> formatArgs args = Throw e ->
  run theLogger op args st = (Throw e, st).
Proof.
  intros Ht Hf. destruct (run_outcome op args st) as [line E].
  rewrite E, Ht, Hf. reflexivity.
Qed.

Lemma emits_outcome (op : Operation) (args : list LogArg) (st : State Time) :
  emits theLogger op args st <->
  atLeast threshold (severity op) = true /\ exists text, formatArgs args = Normal text.
Proof.
  unfold emits. destruct (run_outcome op args st) as [line E]. rewrite E.
  destruct (atLeast threshold (severity op)).
  - destruct (formatArgs args) as [text|e]; simpl.
    + split; [eauto | intros _; apply write_changes_console].
    + split; [intros H; exfalso; apply H; reflexivity | intros [_ [t H]]; discriminate H].
  - simpl. split; [intros H; exfalso; apply H; reflexivity | intros [H _]; discriminate H].
Qed.

(** X8: verbosity is cumulative.  If an operation writes its arguments,
    then every operation of the same or a lower level number (the more
    urgent ones: [error] below [warn] below [info] below [debug]) writes
    the same arguments too, from any state. *)
Theorem more_urgent_operations_write_too
  (op op' : Operation) (args : list LogArg) (st st' : State Time) :
  (levelValue (severity op') <= levelValue (severity op))%Z ->
  emits theLogger op args st ->
  emits theLogger op' args st'.
Proof.
  intros Hle H. apply emits_outcome in H. destruct H as [Ht Hf].
  apply emits_outcome. split; [|exact Hf].
  apply atLeast_spec in Ht. apply atLeast_spec. lia.
Qed.

End Operations.

Lemma more_urgent_operations_write_too_witness :
  (levelValue (severity OpError) <= levelValue (severity OpWarn))%Z /\
  emits demoLogger OpWarn [PlainArg "No file uploaded"] demoStart /\
  emits demoLogger OpError [PlainArg "No file uploaded"] demoStart.
Proof.
  assert (Hle : (levelValue (severity OpError) <= levelValue (severity OpWarn))%Z)
    by (vm_compute; discriminate).
  assert (Hw : emits demoLogger OpWarn [PlainArg "No file uploaded"] demoStart)
    by (vm_compute; discriminate).
  split; [exact Hle|]. split; [exact Hw|].
  exact (more_urgent_operations_write_too (fun s => s) string (fun t => t) plainChalk
           "app/page" demoEnv (Some "FileUpload") OpWarn OpError
           [PlainArg "No file uploaded"] demoStart demoStart Hle Hw).
Defined.

End LoggerMore.

(* ===================================================================== *)
(** ** lib/utilities/logger.ts: [getCallerFile] *)
(* ===================================================================== *)

Module CallerFile.
Import JsString.

Definition newline : ascii := Ascii.ascii_of_nat 10.
Definition backslash : ascii := Ascii.ascii_of_nat 92.

(** [s.includes(searchString)]. *)
Fixpoint stringIncludes (s searchString : string) : bool :=
  startsWith s searchString
  || match s with
     | EmptyString => false
     | String _ s' => stringIncludes s' searchString
     end.

(** [s.split(sep)] for a separator of one character. *)
Fixpoint split (sep : ascii) (s : string) : list string :=
  match s with
  | EmptyString => [""]
  | String c s' =>
      if Ascii.eqb c sep then "" :: split sep s'
      else
        match split sep s' with
        | first :: rest => String c first :: rest
        | [] => [String c ""]
        end
  end.

(** The characters of [s] before the first [stop], all of [s] when there is
    none: [s.split(stop)[0]]. *)
Fixpoint before (stop : ascii) (s : string) : string :=
  match s with
  | EmptyString => ""
  | String c s' => if Ascii.eqb c stop then "" else String c (before stop s')
  end.

Fixpoint hasChar (c : ascii) (s : string) : bool :=
  match s with
  | EmptyString => false
  | String d s' => Ascii.eqb d c || hasChar c s'
  end.

(** The first group of [line.match(/\(([^)]+)\)/)]: at the leftmost opening
    parenthesis that is followed by at least one character other than a
    closing parenthesis and then by a closing one, the characters in
    between. *)
Fixpoint parenthesised (line : string) : option string :=
  match line with
  | EmptyString => None
  | String c rest =>
      if Ascii.eqb c "(" && negb (String.eqb (before ")" rest) "") && hasChar ")" rest
      then Some (before ")" rest)
      else parenthesised rest
  end.

(** [s.replace(/\\/g, '/')]: every backslash becomes a slash. *)
Fixpoint normalizeSeparators (s : string) : string :=
  match s with
  | EmptyString => ""
  | String c s' =>
      String (if Ascii.eqb c backslash then "/"%char else c) (normalizeSeparators s')
  end.

(** [s.replace(/\.(ts|tsx|js|jsx)$/, '')]: a final extension of these four
    is removed. *)
Fixpoint removeExtension (s : string) : string :=
  if String.eqb s ".ts" || String.eqb s ".tsx" || String.eqb s ".js" || String.eqb s ".jsx"
  then ""
  else
    match s with
    | EmptyString => ""
    | String c s' => String c (removeExtension s')
    end.

(** The test of [stack.find]: a frame line that mentions neither of the
    logger's own two functions. *)
Definition isCallerLine (line : string) : bool :=
  stringIncludes line "at "
  && negb (stringIncludes line "getCallerFile")
  && negb (stringIncludes line "createLogger").

Section Platform.
(** [new Error().stack], [process.cwd()] (which may throw) and
    [path.relative]. *)
Variable Thrown : Type.
Variable cwd : Completion Thrown string.
Variable relative : string -> string -> string.

Definition getCallerFile (errorStack : option string) : string :=
  let stack := option_map (split newline) errorStack in
  let callerLine :=
    match stack with
    | Some lines => find isCallerLine lines
    | None => None
    end in
  match callerLine with
  | None => "unknown"
  | Some line =>
      if String.eqb line "" then "unknown"
      else
        match parenthesised line with
        | None => "unknown"
        | Some group =>
            let fullPath := before ":" group in
            match cwd with
            | Throw _ => "unknown"
            | Normal projectRoot =>
                let relativePath :=
                  removeExtension (normalizeSeparators (relative projectRoot fullPath)) in
                relativePath
            end
        end
  end.

End Platform.

Arguments getCallerFile {Thrown} cwd relative errorStack.

(** A stack as V8 prints it, and a [path.relative] for POSIX paths below
    the root. *)
Definition demoStack : string :=
  "Error" ++ String newline
  ("    at getCallerFile (/app/lib/utilities/logger.ts:78:17)" ++ String newline
  ("    at createLogger (/app/lib/utilities/logger.ts:130:20)" ++ String newline
   "    at POST (/app/app/api/files/upload/route.ts:7:16)")).

Definition demoRelative (from to : string) : string :=
  if startsWith to (from ++ "/") then slice (String.length from + 1) to else to.

Example getCallerFile_demo :
  getCallerFile (Normal "/app" : Completion unit string) demoRelative (Some demoStack)
  = "app/api/files/upload/route".
Proof. reflexivity. Qed.

(* --------------------------------------------------------------------- *)
(** *** Facts about [getCallerFile] *)
(* --------------------------------------------------------------------- *)

Lemma removeExtension_eq (s : string) :
  removeExtension s =
  if String.eqb s ".ts" || String.eqb s ".tsx" || String.eqb s ".js" || String.eqb s ".jsx"
  then ""
  else
    match s with
    | EmptyString => ""
    | String c s' => String c (removeExtension s')
    end.
Proof. destruct s; reflexivity. Qed.

Lemma removeExtension_keeps_absent (c : ascii) (s : string) :
  hasChar c s = false -> hasChar c (removeExtension s) = false.
Proof.
  induction s as [|d s IH]; intros H; rewrite removeExtension_eq.
  - reflexivity.
  - destruct (String.eqb (String d s) ".ts" || String.eqb (String d s) ".tsx"
              || String.eqb (String d s) ".js" || String.eqb (String d s) ".jsx");
      [reflexivity|].
    simpl in *. apply orb_false_iff in H. destruct H as [Hd Hs].
    rewrite Hd, (IH Hs). reflexivity.
Qed.

Lemma normalizeSeparators_no_backslash (s : string) :
  hasChar backslash (normalizeSeparators s) = false.
Proof.
  induction s as [|c s IH]; simpl; [reflexivity|].
  rewrite IH, orb_false_r.
  destruct (Ascii.eqb c backslash) eqn:E; [reflexivity | exact E].
Qed.




Lemma split_first_line (sep : ascii) (line rest : string) :
  hasChar sep line = false ->
  split sep (line ++ String sep rest) = line :: split sep rest.
Proof.
  induction line as [|c line IH]; simpl; intros H.
  - rewrite Ascii.eqb_refl. reflexivity.
  - apply orb_false_iff in H. destruct H as [Hc Hl].
    rewrite Hc, (IH Hl). reflexivity.
Qed.

Section PlatformFacts.
Variable Thrown : Type.
Variable cwd : Completion Thrown string.
Variable relative : string -> string -> string.

(** What [getCallerFile] returns when it does not give up. *)
Lemma getCallerFile_cases (errorStack : option string) :
  getCallerFile cwd relative errorStack = "unknown" \/
  exists line group projectRoot,
    parenthesised line = Some group /\
    cwd = Normal projectRoot /\
    getCallerFile cwd relative errorStack
    = removeExtension (normalizeSeparators (relative projectRoot (before ":" group))).
Proof.
  unfold getCallerFile.
  destruct (match option_map (split newline) errorStack with
            | Some lines => find isCallerLine lines
            | None => None
            end) as [line|]; [|left; reflexivity].
  destruct (String.eqb line ""); [left; reflexivity|].
  destruct (parenthesised line) as [group|] eqn:P; [|left; reflexivity].
  destruct cwd as [projectRoot|e]; [|left; reflexivity].
  right. exists line, group, projectRoot. auto.
Qed.

(** X9: the caller file is always given with forward slashes: whatever
    the stack, the working directory and [path.relative] are, the result
    holds no backslash. *)
Theorem getCallerFile_has_no_backslash (errorStack : option string) :
  hasChar backslash (getCallerFile cwd relative errorStack) = false.
Proof.
  destruct (getCallerFile_cases errorStack) as [E | [line [group [root [_ [_ E]]]]]];
    rewrite E.
  - reflexivity.
  - apply removeExtension_keeps_absent, normalizeSeparators_no_backslash.
Qed.


(** X11: lines of the stack that are no frame, or that mention
    [getCallerFile] or [createLogger] anywhere (the logger's own frames,
    but also a caller whose path holds one of these names), are passed
    over: dropping such a first line from the stack changes nothing. *)
Theorem getCallerFile_skips_own_frames (line rest : string) :
  hasChar newline line = false ->
  isCallerLine line = false ->
  getCallerFile cwd relative (Some (line ++ String newline rest))
  = getCallerFile cwd relative (Some rest).
Proof.
  intros Hn Hl. unfold getCallerFile. simpl option_map.
  rewrite (split_first_line _ _ _ Hn). simpl find. rewrite Hl. reflexivity.
Qed.

End PlatformFacts.

Lemma getCallerFile_skips_own_frames_witness :
  hasChar newline "    at createLogger (/app/lib/utilities/logger.ts:130:20)" = false /\
  isCallerLine "    at createLogger (/app/lib/utilities/logger.ts:130:20)" = false /\
  getCallerFile (Normal "/app" : Completion unit string) demoRelative
    (Some ("    at createLogger (/app/lib/utilities/logger.ts:130:20)"
           ++ String newline "    at POST (/app/app/api/files/upload/route.ts:7:16)"))
  = getCallerFile (Normal "/app" : Completion unit string) demoRelative
      (Some "    at POST (/app/app/api/files/upload/route.ts:7:16)").
Proof.
  split; [reflexivity|]. split; [reflexivity|].
  exact (getCallerFile_skips_own_frames unit (Normal "/app") demoRelative
           "    at createLogger (/app/lib/utilities/logger.ts:130:20)"
           "    at POST (/app/app/api/files/upload/route.ts:7:16)" eq_refl eq_refl).
Defined.

End CallerFile.

(* ===================================================================== *)
(** ** Further properties of the file upload route *)
(* ===================================================================== *)

Module UploadMore.
Import JsString Upload.

(** The call of [put] the handler makes for a blob whose bytes it read. *)
Definition putCall {Bytes} (b : Blob Bytes) (bytes : Bytes) : PutCall Bytes :=
  {| pathname := name b; content := bytes; access := "public" |}.

(** Logging [error] next to a message with [logger.error] returns: either
    the level is below ERROR, so nothing is formatted, or [error] can be
    formatted. *)
Definition CanLog (toUpperCase : string -> string) (env : Logger.Env) (error : Thrown)
  : Prop :=
  (Logger.levelValue (Logger.logLevel toUpperCase env) < Logger.levelValue Logger.ERROR)%Z
  \/ LoggerMore.Formattable error.

(** The computation always returns a value. *)
Definition Returns {Bytes Time A} (m : M Bytes Time A) : Prop :=
  forall st, exists a st', m st = (Normal a, st').

(** The computation returns, or throws a value the outer [catch] can log. *)
Definition Handled {Bytes Time A} (toUpperCase : string -> string) (env : Logger.Env)
           (m : M Bytes Time A) : Prop :=
  forall st,
    (exists a st', m st = (Normal a, st')) \/
    (exists e st', m st = (Throw e, st') /\ CanLog toUpperCase env e).

(** Requests for running the statements. *)
Definition unreadable : Request string string :=
  {| auth := Normal (Some "user-1");
     bodyIsNull := false;
     formData := Throw (Logger.ErrorArg "Content-Type was not multipart/form-data"
                                        "TypeError: Content-Type was not multipart/form-data") |}.


Definition anonymous : Request string string :=
  {| auth := Normal None; bodyIsNull := false;
     formData := Normal [("file", FileValue png)] |}.

Definition truncated : Blob string :=
  {| size := 2048; type := "image/png"; name := "cat.png";
     arrayBuffer := Throw (Logger.ErrorArg "aborted" "Error: aborted") |}.

Definition withField (value : FormValue string) : Request string string :=
  {| auth := Normal (Some "user-1");
     bodyIsNull := false;
     formData := Normal [("note", TextValue "hello"); ("file", value)] |}.

Definition failingPut (pathname : string) (content : string) : Completion Thrown string :=
  Throw (Logger.ErrorArg "store unavailable" "Error: store unavailable").

Definition failingPOST (request : Request string string)
  : M string string (Response string) :=
  POST [] (fun s => s) (fun t => t) Logger.plainChalk "app/api/files/upload/route"
    Logger.demoEnv failingPut request.


(* --------------------------------------------------------------------- *)
(** *** Steps of the handler *)
(* --------------------------------------------------------------------- *)

Section Steps.
Variables Bytes Descriptor Session : Type.
Variable issuesAfterInstanceof : list string.
Variable toUpperCase : string -> string.
Variable Time : Type.
Variable toLocaleTimeString : Time -> string.
Variable chalk : Logger.Chalk.
Variable callerFile : string.
Variable env : Logger.Env.
Variable putImpl : string -> Bytes -> Completion Thrown Descriptor.

Local Abbreviation handler :=
  (POST issuesAfterInstanceof toUpperCase toLocaleTimeString chalk callerFile env putImpl
     : Request Bytes Session -> M Bytes Time (Response Descriptor)).
Local Abbreviation safeParse := (FileSchema_safeParse issuesAfterInstanceof).
Local Abbreviation theLogger :=
  (logger toUpperCase Time toLocaleTimeString chalk callerFile env).
Local Abbreviation threshold := (Logger.logLevel toUpperCase env).

(** A logger call followed by [return response]. *)
Local Abbreviation logThenReturn op args response :=
  (Eff.bind (log (Bytes := Bytes) (Logger.run theLogger op args))
            (fun _ => Eff.ret (response : Response Descriptor))).

Lemma state_eta (st : State Bytes Time) :
  {| logState := logState st; puts := puts st |} = st.
Proof. destruct st; reflexivity. Qed.

Lemma logThenReturn_returns (op : Logger.Operation) (args : list Logger.LogArg)
      (response : Response Descriptor) (st : State Bytes Time) :
  Logger.atLeast threshold (Logger.severity op) = false
  \/ (exists text, Logger.formatArgs args = Normal text) ->
  exists ls,
    logThenReturn op args response st
    = (Normal response, {| logState := ls; puts := puts st |}).
Proof.
  intros H. unfold Eff.bind, log, Eff.ret.
  destruct (LoggerMore.run_returns toUpperCase Time toLocaleTimeString chalk callerFile env
              (Some "FileUpload") op args (logState st) H) as [ls E].
  fold theLogger in E. rewrite E. eauto.
Qed.

Lemma logThenReturn_throws (op : Logger.Operation) (args : list Logger.LogArg)
      (e : Thrown) (response : Response Descriptor) (st : State Bytes Time) :
  Logger.atLeast threshold (Logger.severity op) = true ->
  Logger.formatArgs args = Throw e ->
  logThenReturn op args response st = (Throw e, st).
Proof.
  intros Ht Hf. unfold Eff.bind, log, Eff.ret.
  pose proof (LoggerMore.run_throws toUpperCase Time toLocaleTimeString chalk callerFile env
                (Some "FileUpload") op args e (logState st) Ht Hf) as E.
  fold theLogger in E. rewrite E. rewrite state_eta. reflexivity.
Qed.

Lemma plain_formats (text : string) :
  exists t, Logger.formatArgs [Logger.PlainArg text] = Normal t.
Proof. eexists. reflexivity. Qed.

Lemma with_error_formats (text : string) (error : Thrown) :
  CanLog toUpperCase env error ->
  Logger.atLeast threshold Logger.ERROR = false
  \/ (exists t, Logger.formatArgs [Logger.PlainArg text; error] = Normal t).
Proof.
  intros [H|[t H]].
  - left. destruct (Logger.atLeast threshold Logger.ERROR) eqn:E; [|reflexivity].
    apply Logger.atLeast_spec in E. lia.
  - right. unfold Logger.formatArgs. simpl. rewrite H. eauto.
Qed.

Lemma with_error_throws (text : string) (error e : Thrown) :
  Logger.formatArg error = Throw e ->
  Logger.formatArgs [Logger.PlainArg text; error] = Throw e.
Proof. intros H. unfold Logger.formatArgs. simpl. rewrite H. reflexivity. Qed.

Lemma tryCatch_Throw {A} (body : M Bytes Time A) (onError : Thrown -> M Bytes Time A)
      (st st' : State Bytes Time) (e : Thrown) :
  body st = (Throw e, st') -> Eff.tryCatch body onError st = onError e st'.
Proof. intros H. unfold Eff.tryCatch. rewrite H. reflexivity. Qed.

Lemma bind_await_Throw {A B} (settled : Completion Thrown A) (e : Thrown)
      (k : A -> M Bytes Time B) (st : State Bytes Time) :
  settled = Throw e -> Eff.bind (await settled) k st = (Throw e, st).
Proof. intros ->. reflexivity. Qed.

Lemma errors_logged (op : Logger.Operation) :
  (Logger.levelValue (Logger.severity op) <= Logger.levelValue threshold)%Z ->
  Logger.atLeast threshold (Logger.severity op) = true.
Proof. intros H. apply Logger.atLeast_spec. exact H. Qed.

Ltac open_handler Ha Hb :=
  unfold POST; rewrite (Upload.bind_await _ _ _ _ _ _ Ha), Hb.

Ltac reach_blob Hf Hg Hv :=
  rewrite (Upload.bind_await _ _ _ _ _ _ Hf); cbv zeta; rewrite Hg;
  match goal with
  | |- context [isFalsy (Some (FileValue ?b))] =>
      change (isFalsy (Some (FileValue b))) with false; cbv iota;
      rewrite (proj2 (Upload.safeParse_Success Bytes Descriptor issuesAfterInstanceof
                        toUpperCase callerFile putImpl (Some (FileValue b)) b)
                 (conj eq_refl Hv));
      cbv iota zeta beta
  end.

(** X12: a request without a session, or without a body, is answered
    before its form data is looked at: 401 with error Unauthorized in the
    first case, 400 with the text "Request body is empty" in the second,
    whatever the form data holds, and nothing is stored. *)
Theorem rejected_before_reading (request : Request Bytes Session) (st : State Bytes Time) :
  (auth request = Normal None ->
   exists ls,
     handler request st
     = (Normal (json (JsonError "Unauthorized") (Some 401%Z)),
        {| logState := ls; puts := puts st |})) /\
  (forall session,
      auth request = Normal (Some session) ->
      bodyIsNull request = true ->
      exists ls,
        handler request st
        = (Normal {| status := 400; body := Text "Request body is empty" |},
           {| logState := ls; puts := puts st |})).
Proof.
  split.
  - intros Ha. unfold POST. rewrite (Upload.bind_await _ _ _ _ _ _ Ha).
    exact (logThenReturn_returns Logger.OpError _ _ st (or_intror (plain_formats _))).
  - intros session Ha Hb. open_handler Ha Hb.
    exact (logThenReturn_returns Logger.OpWarn _ _ st (or_intror (plain_formats _))).
Qed.


(** X14: when reading the form data throws, or reading the bytes of a
    valid blob throws, and the thrown value can be logged, the answer is
    500 with error "Failed to process request" and the storage service is
    not called. *)
Theorem unreadable_request_gives_500
  (request : Request Bytes Session) (st : State Bytes Time)
  (session : Session) (e : Thrown) :
  auth request = Normal (Some session) ->
  bodyIsNull request = false ->
  CanLog toUpperCase env e ->
  (formData request = Throw e \/
   exists fd b,
     formData request = Normal fd /\ get fd "file" = Some (FileValue b) /\
     passesValidation b /\ arrayBuffer b = Throw e) ->
  exists ls,
    handler request st
    = (Normal (json (JsonError "Failed to process request") (Some 500%Z)),
       {| logState := ls; puts := puts st |}).
Proof.
  intros Ha Hb Hl [Hf | [fd [b [Hf [Hg [Hv Hbytes]]]]]]; open_handler Ha Hb.
  - erewrite tryCatch_Throw; [|apply bind_await_Throw; exact Hf].
    exact (logThenReturn_returns Logger.OpError _ _ st (with_error_formats _ _ Hl)).
  - erewrite tryCatch_Throw.
    + exact (logThenReturn_returns Logger.OpError _ _ st (with_error_formats _ _ Hl)).
    + reach_blob Hf Hg Hv. apply bind_await_Throw. exact Hbytes.
Qed.

(** X15: when the storage service rejects a valid upload with a value that
    can be logged, the answer is 500 with error "Upload failed"; the one
    call of [put] was made, under the blob's file name with public access. *)
Theorem rejected_put_gives_500
  (request : Request Bytes Session) (st : State Bytes Time)
  (session : Session) (fd : FormData Bytes) (b : Blob Bytes) (bytes : Bytes)
  (e : Thrown) :
  auth request = Normal (Some session) ->
  bodyIsNull request = false ->
  formData request = Normal fd ->
  get fd "file" = Some (FileValue b) ->
  passesValidation b ->
  arrayBuffer b = Normal bytes ->
  putImpl (name b) bytes = Throw e ->
  CanLog toUpperCase env e ->
  exists ls,
    handler request st
    = (Normal (json (JsonError "Upload failed") (Some 500%Z)),
       {| logState := ls; puts := (puts st ++ [putCall b bytes])%list |}).
Proof.
  intros Ha Hb Hf Hg Hv Hbytes Hput Hl. open_handler Ha Hb.
  match goal with
  | |- context [Eff.tryCatch ?body ?onError st] =>
      assert (B : exists ls,
                 body st = (Normal (json (JsonError "Upload failed") (Some 500%Z)),
                            {| logState := ls;
                               puts := (puts st ++ [putCall b bytes])%list |}))
  end.
  { reach_blob Hf Hg Hv. rewrite (Upload.bind_await _ _ _ _ _ _ Hbytes).
    erewrite tryCatch_Throw.
    - exact (logThenReturn_returns Logger.OpError _ _
               {| logState := logState st; puts := (puts st ++ [putCall b bytes])%list |}
               (with_error_formats _ _ Hl)).
    - unfold Eff.bind at 1. unfold put. rewrite Hput. reflexivity. }
  destruct B as [ls B]. exists ls. exact (Upload.tryCatch_Normal _ _ _ _ _ _ _ B).
Qed.

(** X16: when the storage service rejects with a value that cannot be
    formatted while errors are logged, logging it in the inner [catch]
    throws; the outer [catch] takes over, and if it can log what the
    formatting threw, the answer is 500 with error "Failed to process
    request" instead of "Upload failed".  The call of [put] was made. *)
Theorem rejected_put_falls_to_outer_catch
  (request : Request Bytes Session) (st : State Bytes Time)
  (session : Session) (fd : FormData Bytes) (b : Blob Bytes) (bytes : Bytes)
  (e e' : Thrown) :
  auth request = Normal (Some session) ->
  bodyIsNull request = false ->
  formData request = Normal fd ->
  get fd "file" = Some (FileValue b) ->
  passesValidation b ->
  arrayBuffer b = Normal bytes ->
  putImpl (name b) bytes = Throw e ->
  (Logger.levelValue Logger.ERROR <= Logger.levelValue threshold)%Z ->
  Logger.formatArg e = Throw e' ->
  LoggerMore.Formattable e' ->
  exists ls,
    handler request st
    = (Normal (json (JsonError "Failed to process request") (Some 500%Z)),
       {| logState := ls; puts := (puts st ++ [putCall b bytes])%list |}).
Proof.
  intros Ha Hb Hf Hg Hv Hbytes Hput Hl He He'. open_handler Ha Hb.
  erewrite tryCatch_Throw.
  - exact (logThenReturn_returns Logger.OpError _ _
             {| logState := logState st; puts := (puts st ++ [putCall b bytes])%list |}
             (with_error_formats _ _ (or_intror He'))).
  - reach_blob Hf Hg Hv. rewrite (Upload.bind_await _ _ _ _ _ _ Hbytes).
    erewrite tryCatch_Throw.
    + exact (logThenReturn_throws Logger.OpError _ e' _ _
               (errors_logged Logger.OpError Hl) (with_error_throws _ _ _ He)).
    + unfold Eff.bind at 1. unfold put. rewrite Hput. reflexivity.
Qed.

Lemma typeRefinement_accepts (b : Blob Bytes) :
  typeRefinement b = true <-> (type b = "image/jpeg" \/ type b = "image/png").
Proof.
  unfold typeRefinement, includes. simpl.
  rewrite !orb_true_iff, !String.eqb_eq. intuition discriminate.
Qed.

Lemma answered_by_body (body : M Bytes Time (Response Descriptor))
      (onError : Thrown -> M Bytes Time (Response Descriptor))
      (st : State Bytes Time) (response : Response Descriptor)
      (stored : list (PutCall Bytes)) :
  (exists ls, body st = (Normal response, {| logState := ls; puts := stored |})) ->
  exists ls,
    Eff.tryCatch body onError st = (Normal response, {| logState := ls; puts := stored |}).
Proof.
  intros [ls B]. exists ls. exact (Upload.tryCatch_Normal _ _ _ _ _ _ _ B).
Qed.

(** X17: the 400 answer for a blob that fails validation names exactly
    the checks that failed: the size message alone for a blob of an accepted
    type that is over 5 * 1024 * 1024 bytes, the type message alone for a
    blob within the size of another type, and both, joined by a comma with
    the size message first, when both fail.  Nothing is stored. *)
Theorem validation_error_names_failed_checks
  (request : Request Bytes Session) (st : State Bytes Time)
  (session : Session) (fd : FormData Bytes) (b : Blob Bytes) :
  auth request = Normal (Some session) ->
  bodyIsNull request = false ->
  formData request = Normal fd ->
  get fd "file" = Some (FileValue b) ->
  let answers error :=
    exists ls,
      handler request st
      = (Normal (json (JsonError error) (Some 400%Z)),
         {| logState := ls; puts := puts st |}) in
  let accepted := type b = "image/jpeg" \/ type b = "image/png" in
  ((5 * 1024 * 1024 < size b)%Z -> accepted ->
   answers "File size should be less than 5MB") /\
  ((size b <= 5 * 1024 * 1024)%Z -> ~ accepted ->
   answers "File type should be JPEG or PNG") /\
  ((5 * 1024 * 1024 < size b)%Z -> ~ accepted ->
   answers "File size should be less than 5MB,File type should be JPEG or PNG").
Proof.
  intros Ha Hb Hf Hg answers accepted. subst answers accepted. cbv beta.
  assert (body_of : forall big wrong,
             sizeRefinement b = negb big -> typeRefinement b = negb wrong ->
             big || wrong = true ->
             exists ls,
               handler request st
               = (Normal (json (JsonError
                             (join ","
                                ((if big then ["File size should be less than 5MB"] else [])
                                 ++ (if wrong then ["File type should be JPEG or PNG"] else [])))%list)
                            (Some 400%Z)),
                  {| logState := ls; puts := puts st |})).
  { intros big wrong Hs Ht Hbw. open_handler Ha Hb. apply answered_by_body.
    rewrite (Upload.bind_await _ _ _ _ _ _ Hf). cbv zeta. rewrite Hg.
    change (isFalsy (Some (FileValue b))) with false. cbv iota.
    unfold FileSchema_safeParse. rewrite Hs, Ht.
    destruct big, wrong; try discriminate Hbw; cbv iota zeta beta; simpl app;
      cbv iota zeta beta;
      exact (logThenReturn_returns Logger.OpWarn _ _ st (or_intror (plain_formats _))). }
  assert (big_size : (5 * 1024 * 1024 < size b)%Z -> sizeRefinement b = negb true).
  { intros H. unfold sizeRefinement. apply Z.leb_gt. exact H. }
  assert (small_size : (size b <= 5 * 1024 * 1024)%Z -> sizeRefinement b = negb false).
  { intros H. unfold sizeRefinement. apply Z.leb_le. exact H. }
  assert (good_type : (type b = "image/jpeg" \/ type b = "image/png") ->
                      typeRefinement b = negb false).
  { intros H. apply typeRefinement_accepts. exact H. }
  assert (bad_type : ~ (type b = "image/jpeg" \/ type b = "image/png") ->
                     typeRefinement b = negb true).
  { intros H. destruct (typeRefinement b) eqn:E; [|reflexivity].
    exfalso. apply H. apply typeRefinement_accepts. exact E. }
  split; [|split].
  - intros Hs Ht. exact (body_of true false (big_size Hs) (good_type Ht) eq_refl).
  - intros Hs Ht. exact (body_of false true (small_size Hs) (bad_type Ht) eq_refl).
  - intros Hs Ht. exact (body_of true true (big_size Hs) (bad_type Ht) eq_refl).
Qed.

(** X18: a form without a [file] entry, or with an empty text as its
    [file], is answered 400 with error "No file uploaded"; a non-empty text
    as [file] gets as far as the schema and is answered 400 with the
    schema's messages for a value that is no blob, which begin with "Input
    not instance of Blob".  Nothing is stored. *)
Theorem missing_or_text_file_gives_400
  (request : Request Bytes Session) (st : State Bytes Time)
  (session : Session) (fd : FormData Bytes) :
  auth request = Normal (Some session) ->
  bodyIsNull request = false ->
  formData request = Normal fd ->
  let answers error :=
    exists ls,
      handler request st
      = (Normal (json (JsonError error) (Some 400%Z)),
         {| logState := ls; puts := puts st |}) in
  (get fd "file" = None \/ get fd "file" = Some (TextValue "") ->
   answers "No file uploaded") /\
  (forall text, text <> "" -> get fd "file" = Some (TextValue text) ->
                answers (join "," ("Input not instance of Blob" :: issuesAfterInstanceof))).
Proof.
  intros Ha Hb Hf answers. subst answers. cbv beta.
  split.
  - intros Hg. open_handler Ha Hb. apply answered_by_body.
    rewrite (Upload.bind_await _ _ _ _ _ _ Hf). cbv zeta.
    replace (isFalsy (get fd "file")) with true by (destruct Hg as [-> | ->]; reflexivity).
    exact (logThenReturn_returns Logger.OpWarn _ _ st (or_intror (plain_formats _))).
  - intros text Ht Hg. open_handler Ha Hb. apply answered_by_body.
    rewrite (Upload.bind_await _ _ _ _ _ _ Hf). cbv zeta. rewrite Hg.
    replace (isFalsy (Some (@TextValue Bytes text))) with false
      by (symmetry; apply String.eqb_neq; exact Ht).
    cbv iota. unfold FileSchema_safeParse. cbv iota zeta beta.
    exact (logThenReturn_returns Logger.OpWarn _ _ st (or_intror (plain_formats _))).
Qed.

(** Every run of the handler, whatever the logger does, ends in one of
    two ways: a valid blob was read, [put] was called once for it, and the
    result is what [put] and the loggers made of it; or [put] was not
    called and the result is no descriptor. *)
Tactic Notation "next_log" simple_intropattern(pat) :=
  match goal with
  | |- context [Logger.error ?l ?args ?ls] => destruct (Logger.error l args ls) as pat
  | |- context [Logger.warn ?l ?args ?ls] => destruct (Logger.warn l args ls) as pat
  | |- context [Logger.info ?l ?args ?ls] => destruct (Logger.info l args ls) as pat
  end.

Lemma POST_shape (request : Request Bytes Session) (st : State Bytes Time) :
  (exists fd b bytes,
      formData request = Normal fd /\ get fd "file" = Some (FileValue b) /\
      passesValidation b /\ arrayBuffer b = Normal bytes /\
      puts (snd (handler request st)) = (puts st ++ [putCall b bytes])%list /\
      forall response,
        fst (handler request st) = Normal response ->
        (exists data,
            putImpl (name b) bytes = Normal data /\
            response = {| status := 200; body := JsonData data |}) \/
        (exists error, response = json (JsonError error) (Some 500%Z))) \/
  (puts (snd (handler request st)) = puts st /\
   forall response,
     fst (handler request st) = Normal response ->
     (exists error,
         response = json (JsonError error) (Some 400%Z) \/
         response = json (JsonError error) (Some 401%Z) \/
         response = json (JsonError error) (Some 500%Z)) \/
     response = {| status := 400; body := Text "Request body is empty" |}).
Proof.
  unfold POST, Eff.bind, Eff.tryCatch, Eff.ret, await, log, put.
  set (l := logger toUpperCase Time toLocaleTimeString chalk callerFile env).
  clearbody l.
  assert (quiet : forall (r : Completion Thrown unit) (ls : Logger.State Time)
                         (response : Response Descriptor),
             ((exists error,
                  response = json (JsonError error) (Some 400%Z) \/
                  response = json (JsonError error) (Some 401%Z) \/
                  response = json (JsonError error) (Some 500%Z)) \/
              response = {| status := 400; body := Text "Request body is empty" |}) ->
             let result :=
               match r with
               | Normal _ => (Normal response, {| logState := ls; puts := puts st |})
               | Throw e => (Throw e, {| logState := ls; puts := puts st |})
               end in
             puts (snd result) = puts st /\
             forall response',
               fst result = Normal response' ->
               (exists error,
                   response' = json (JsonError error) (Some 400%Z) \/
                   response' = json (JsonError error) (Some 401%Z) \/
                   response' = json (JsonError error) (Some 500%Z)) \/
               response' = {| status := 400; body := Text "Request body is empty" |}).
  { intros [[]|e] ls response H; simpl; split; try reflexivity.
    - intros response' E. injection E as <-. exact H.
    - intros response' E. discriminate E. }
  destruct (auth request) as [[session|]|e].
  3: { right. simpl. split; [reflexivity | intros response E; discriminate E]. }
  2: { right.
       next_log [r ls].
       apply (quiet r ls). left. eexists. right. left. reflexivity. }
  destruct (bodyIsNull request).
  { right.
    next_log [r ls].
    apply (quiet r ls). right. reflexivity. }
  destruct (formData request) as [fd|e].
  2: { right.
       next_log [r ls].
       apply (quiet r ls). left. eexists. right. right. reflexivity. }
  cbv zeta.
  destruct (isFalsy (get fd "file")).
  { right.
    next_log [[[]|e] ls].
    - apply (quiet (Normal tt) ls). left. eexists. left. reflexivity.
    - simpl.
      next_log [r ls'].
      apply (quiet r ls'). left. eexists. right. right. reflexivity. }
  destruct (safeParse (get fd "file")) as [b|messages] eqn:P.
  2: { right.
       next_log [[[]|e] ls].
       - apply (quiet (Normal tt) ls). left. eexists. left. reflexivity.
       - simpl.
      next_log [r ls'].
         apply (quiet r ls'). left. eexists. right. right. reflexivity. }
  apply (Upload.safeParse_Success Bytes Descriptor issuesAfterInstanceof toUpperCase
           callerFile putImpl) in P.
  destruct P as [G V].
  destruct (arrayBuffer b) as [bytes|e] eqn:A.
  2: { right.
       next_log [r ls].
       apply (quiet r ls). left. eexists. right. right. reflexivity. }
  left. exists fd, b, bytes.
  split; [reflexivity|]. split; [exact G|]. split; [exact V|]. split; [exact A|].
  cbv beta iota zeta.
  destruct (putImpl (name b) bytes) as [data|e].
  - next_log [[[]|e] ls]; simpl.
    + split; [reflexivity|]. intros response E. injection E as <-.
      left. exists data. auto.
    + next_log [[[]|e'] ls'];
        simpl.
      * split; [reflexivity|]. intros response E. injection E as <-.
        right. eexists. reflexivity.
      * next_log [[[]|e''] ls'']; simpl; (split; [reflexivity|]); intros response E;
          [injection E as <-; right; eexists; reflexivity | discriminate E].
  - simpl.
    next_log [[[]|e'] ls']; simpl.
    + split; [reflexivity|]. intros response E. injection E as <-.
      right. eexists. reflexivity.
    + next_log [[[]|e''] ls'']; simpl; (split; [reflexivity|]); intros response E;
        [injection E as <-; right; eexists; reflexivity | discriminate E].
Qed.

(** X19: the handler calls the storage service at most once, never
    touches what was stored before, and the one call it may make is for the
    request's first [file] entry, a blob that passed validation: the blob's
    bytes under the blob's own file name, with public access. *)
Theorem stores_at_most_once (request : Request Bytes Session) (st : State Bytes Time) :
  puts (snd (handler request st)) = puts st \/
  exists fd b bytes,
    formData request = Normal fd /\ get fd "file" = Some (FileValue b) /\
    passesValidation b /\ arrayBuffer b = Normal bytes /\
    puts (snd (handler request st)) = (puts st ++ [putCall b bytes])%list.
Proof.
  destruct (POST_shape request st)
    as [[fd [b [bytes [Hf [Hg [Hv [Hb [Hp _]]]]]]]] | [Hp _]].
  - right. exists fd, b, bytes. auto.
  - left. exact Hp.
Qed.

(** X20: every response of the handler has status 200, 400, 401 or 500.
    It has status 200 exactly when it carries a descriptor, and then the
    descriptor is what the storage service returned for the request's valid
    blob, whose [put] call was made; every other response carries an error
    or, for a missing body, a plain text. *)
Theorem responses_of_the_handler
  (request : Request Bytes Session) (st : State Bytes Time)
  (response : Response Descriptor) :
  fst (handler request st) = Normal response ->
  (status response = 200 \/ status response = 400 \/
   status response = 401 \/ status response = 500)%Z /\
  (status response = 200%Z <-> exists data, body response = JsonData data) /\
  (forall data,
      body response = JsonData data ->
      exists fd b bytes,
        formData request = Normal fd /\ get fd "file" = Some (FileValue b) /\
        passesValidation b /\ arrayBuffer b = Normal bytes /\
        putImpl (name b) bytes = Normal data /\
        puts (snd (handler request st)) = (puts st ++ [putCall b bytes])%list).
Proof.
  intros H.
  destruct (POST_shape request st)
    as [[fd [b [bytes [Hf [Hg [Hv [Hb [Hp Hr]]]]]]]] | [Hp Hr]];
    specialize (Hr response H).
  - destruct Hr as [[data [Hd ->]] | [error ->]]; simpl.
    + split; [auto|]. split; [split; eauto|].
      intros data' E. injection E as <-. exists fd, b, bytes. auto 10.
    + split; [auto|]. split.
      * split; [discriminate | intros [data E]; discriminate E].
      * intros data E. discriminate E.
  - destruct Hr as [[error [-> | [-> | ->]]] | ->]; simpl;
      (split; [auto|]); (split; [split; [discriminate | intros [data E]; discriminate E]|]);
      intros data E; discriminate E.
Qed.

(* --------------------------------------------------------------------- *)
(** *** When the handler is sure to answer *)
(* --------------------------------------------------------------------- *)

Lemma returns_leaf (op : Logger.Operation) (args : list Logger.LogArg)
      (response : Response Descriptor) :
  Logger.atLeast threshold (Logger.severity op) = false
  \/ (exists text, Logger.formatArgs args = Normal text) ->
  Returns (logThenReturn op args response).
Proof.
  intros H st. destruct (logThenReturn_returns op args response st H) as [ls E].
  eauto.
Qed.

Lemma handled_of_returns {A} (m : M Bytes Time A) :
  Returns m -> Handled toUpperCase env m.
Proof. intros H st. left. apply H. Qed.

Lemma returns_await {A B} (settled : Completion Thrown A) (a : A)
      (k : A -> M Bytes Time B) :
  settled = Normal a -> Returns (k a) -> Returns (Eff.bind (await settled) k).
Proof.
  intros E H st. rewrite (Upload.bind_await _ _ _ _ _ _ E). apply H.
Qed.

Lemma handled_await {A B} (settled : Completion Thrown A) (k : A -> M Bytes Time B) :
  (forall a, settled = Normal a -> Handled toUpperCase env (k a)) ->
  (forall e, settled = Throw e -> CanLog toUpperCase env e) ->
  Handled toUpperCase env (Eff.bind (await settled) k).
Proof.
  intros Hk He st. destruct settled as [a|e].
  - rewrite (Upload.bind_await _ _ _ _ _ _ eq_refl). apply Hk. reflexivity.
  - right. exists e, st. split; [reflexivity | apply He; reflexivity].
Qed.

Lemma handled_put {B} (pathname : string) (content : Bytes)
      (k : Descriptor -> M Bytes Time B) :
  (forall data, putImpl pathname content = Normal data -> Handled toUpperCase env (k data)) ->
  (forall e, putImpl pathname content = Throw e -> CanLog toUpperCase env e) ->
  Handled toUpperCase env (Eff.bind (put putImpl pathname content "public") k).
Proof.
  intros Hk He st. unfold Eff.bind at 1. unfold put.
  destruct (putImpl pathname content) as [data|e].
  - apply Hk. reflexivity.
  - right. eexists _, _. split; [reflexivity | apply He; reflexivity].
Qed.

Lemma returns_tryCatch {A} (body : M Bytes Time A) (onError : Thrown -> M Bytes Time A) :
  Handled toUpperCase env body ->
  (forall e, CanLog toUpperCase env e -> Returns (onError e)) ->
  Returns (Eff.tryCatch body onError).
Proof.
  intros Hb Hh st. unfold Eff.tryCatch.
  destruct (Hb st) as [[a [st' E]] | [e [st' [E Hl]]]]; rewrite E.
  - eauto.
  - apply Hh. exact Hl.
Qed.

(** X21: the handler answers every request for which [auth()] returns
    and everything that may be thrown on the way (by reading the form
    data, by reading the blob's bytes, by the storage service) can be
    logged: it returns a response and does not throw. *)
Theorem handler_answers_when_errors_can_be_logged (request : Request Bytes Session) :
  (exists session, auth request = Normal session) ->
  (forall e, formData request = Throw e -> CanLog toUpperCase env e) ->
  (forall fd b e,
      formData request = Normal fd -> get fd "file" = Some (FileValue b) ->
      arrayBuffer b = Throw e -> CanLog toUpperCase env e) ->
  (forall fd b bytes e,
      formData request = Normal fd -> get fd "file" = Some (FileValue b) ->
      arrayBuffer b = Normal bytes -> putImpl (name b) bytes = Throw e ->
      CanLog toUpperCase env e) ->
  forall st, exists response st', handler request st = (Normal response, st').
Proof.
  intros [session Ha] Hform Hbytes Hput.
  change (Returns (handler request)). unfold POST.
  apply (returns_await _ session); [exact Ha|].
  destruct session as [session|].
  2: { exact (returns_leaf Logger.OpError _ _ (or_intror (plain_formats _))). }
  destruct (bodyIsNull request).
  { exact (returns_leaf Logger.OpWarn _ _ (or_intror (plain_formats _))). }
  apply returns_tryCatch.
  2: { intros e Hl. exact (returns_leaf Logger.OpError _ _ (with_error_formats _ _ Hl)). }
  apply handled_await; [|exact Hform].
  intros fd Hf. cbv zeta.
  destruct (isFalsy (get fd "file")).
  { apply handled_of_returns.
    exact (returns_leaf Logger.OpWarn _ _ (or_intror (plain_formats _))). }
  destruct (safeParse (get fd "file")) as [b|messages] eqn:P.
  2: { apply handled_of_returns.
       exact (returns_leaf Logger.OpWarn _ _ (or_intror (plain_formats _))). }
  apply (Upload.safeParse_Success Bytes Descriptor issuesAfterInstanceof toUpperCase
           callerFile putImpl) in P.
  destruct P as [G _]. cbv zeta.
  apply handled_await; [|intros e He; exact (Hbytes fd b e Hf G He)].
  intros bytes Hb. apply handled_of_returns. apply returns_tryCatch.
  - apply handled_put.
    + intros data _. apply handled_of_returns.
      exact (returns_leaf Logger.OpInfo _ _ (or_intror (plain_formats _))).
    + intros e He. exact (Hput fd b bytes e Hf G Hb He).
  - intros e Hl. exact (returns_leaf Logger.OpError _ _ (with_error_formats _ _ Hl)).
Qed.

End Steps.

Lemma rejected_before_reading_witness :
  auth anonymous = Normal None /\
  exists ls,
    demoPOST anonymous start
    = (Normal (json (JsonError "Unauthorized") (Some 401%Z)),
       {| logState := ls; puts := puts start |}).
Proof.
  split; [reflexivity|].
  exact (proj1 (rejected_before_reading string string string [] (fun s => s) string (fun t => t) Logger.plainChalk
           "app/api/files/upload/route" Logger.demoEnv demoPut
                  anonymous start) eq_refl).
Defined.


Lemma unreadable_request_gives_500_witness :
  auth unreadable = Normal (Some "user-1") /\
  bodyIsNull unreadable = false /\
  (exists e,
      CanLog (fun s => s) Logger.demoEnv e /\ formData unreadable = Throw e) /\
  exists ls,
    demoPOST unreadable start
    = (Normal (json (JsonError "Failed to process request") (Some 500%Z)),
       {| logState := ls; puts := puts start |}).
Proof.
  assert (Hl : CanLog (fun s => s) Logger.demoEnv
                 (Logger.ErrorArg "Content-Type was not multipart/form-data"
                    "TypeError: Content-Type was not multipart/form-data")).
  { right. eexists. reflexivity. }
  split; [reflexivity|]. split; [reflexivity|].
  split; [eexists; split; [exact Hl | reflexivity]|].
  exact (unreadable_request_gives_500 string string string [] (fun s => s) string (fun t => t) Logger.plainChalk
           "app/api/files/upload/route" Logger.demoEnv demoPut
           unreadable start "user-1" _ eq_refl eq_refl Hl (or_introl eq_refl)).
Defined.

Lemma png_passes : passesValidation png.
Proof. split; [vm_compute; discriminate | right; reflexivity]. Qed.

Lemma rejected_put_gives_500_witness :
  auth (upload png) = Normal (Some "user-1") /\
  bodyIsNull (upload png) = false /\
  formData (upload png) = Normal [("file", FileValue png)] /\
  get [("file", FileValue png)] "file" = Some (FileValue png) /\
  passesValidation png /\
  arrayBuffer png = Normal "PNG-bytes" /\
  failingPut (name png) "PNG-bytes"
  = Throw (Logger.ErrorArg "store unavailable" "Error: store unavailable") /\
  exists ls,
    failingPOST (upload png) start
    = (Normal (json (JsonError "Upload failed") (Some 500%Z)),
       {| logState := ls; puts := (puts start ++ [putCall png "PNG-bytes"])%list |}).
Proof.
  assert (Hl : CanLog (fun s => s) Logger.demoEnv
                 (Logger.ErrorArg "store unavailable" "Error: store unavailable")).
  { right. eexists. reflexivity. }
  repeat (split; [first [reflexivity | exact png_passes]|]).
  exact (rejected_put_gives_500 string string string [] (fun s => s) string (fun t => t) Logger.plainChalk
           "app/api/files/upload/route" Logger.demoEnv failingPut
           (upload png) start "user-1" [("file", FileValue png)] png "PNG-bytes" _
           eq_refl eq_refl eq_refl eq_refl png_passes eq_refl eq_refl Hl).
Defined.

Lemma rejected_put_falls_to_outer_catch_witness :
  auth (upload png) = Normal (Some "user-1") /\
  bodyIsNull (upload png) = false /\
  formData (upload png) = Normal [("file", FileValue png)] /\
  get [("file", FileValue png)] "file" = Some (FileValue png) /\
  passesValidation png /\
  arrayBuffer png = Normal "PNG-bytes" /\
  (Logger.levelValue Logger.ERROR
   <= Logger.levelValue (Logger.logLevel (fun s => s) Logger.verboseEnv))%Z /\
  Logger.formatArg Logger.circular = Throw Logger.circularError /\
  LoggerMore.Formattable Logger.circularError /\
  exists ls,
    rejectingPOST (upload png) start
    = (Normal (json (JsonError "Failed to process request") (Some 500%Z)),
       {| logState := ls; puts := (puts start ++ [putCall png "PNG-bytes"])%list |}).
Proof.
  assert (Hl : (Logger.levelValue Logger.ERROR
                <= Logger.levelValue (Logger.logLevel (fun s => s) Logger.verboseEnv))%Z)
    by (vm_compute; discriminate).
  assert (Hf : LoggerMore.Formattable Logger.circularError) by (eexists; reflexivity).
  repeat (split; [first [reflexivity | exact png_passes | exact Hl | exact Hf]|]).
  exact (rejected_put_falls_to_outer_catch string string string [] (fun s => s) string (fun t => t) Logger.plainChalk
           "app/api/files/upload/route" Logger.verboseEnv (fun _ _ => Throw Logger.circular)
           (upload png) start "user-1" [("file", FileValue png)] png "PNG-bytes"
           Logger.circular Logger.circularError
           eq_refl eq_refl eq_refl eq_refl png_passes eq_refl eq_refl Hl eq_refl Hf).
Defined.

Lemma validation_error_names_failed_checks_witness :
  auth (upload hugeGif) = Normal (Some "user-1") /\
  bodyIsNull (upload hugeGif) = false /\
  formData (upload hugeGif) = Normal [("file", FileValue hugeGif)] /\
  get [("file", FileValue hugeGif)] "file" = Some (FileValue hugeGif) /\
  (5 * 1024 * 1024 < size hugeGif)%Z /\
  ~ (type hugeGif = "image/jpeg" \/ type hugeGif = "image/png") /\
  exists ls,
    demoPOST (upload hugeGif) start
    = (Normal (json (JsonError
                       "File size should be less than 5MB,File type should be JPEG or PNG")
                    (Some 400%Z)),
       {| logState := ls; puts := puts start |}).
Proof.
  assert (Hs : (5 * 1024 * 1024 < size hugeGif)%Z) by reflexivity.
  assert (Ht : ~ (type hugeGif = "image/jpeg" \/ type hugeGif = "image/png")).
  { intros [T|T]; discriminate T. }
  repeat (split; [first [reflexivity | exact Hs | exact Ht]|]).
  exact (proj2 (proj2 (validation_error_names_failed_checks string string string [] (fun s => s) string (fun t => t) Logger.plainChalk
           "app/api/files/upload/route" Logger.demoEnv demoPut
                         (upload hugeGif) start "user-1" [("file", FileValue hugeGif)]
                         hugeGif eq_refl eq_refl eq_refl eq_refl)) Hs Ht).
Defined.

Lemma missing_or_text_file_gives_400_witness :
  auth (withField (TextValue "")) = Normal (Some "user-1") /\
  bodyIsNull (withField (TextValue "")) = false /\
  formData (withField (TextValue ""))
  = Normal [("note", TextValue "hello"); ("file", TextValue "")] /\
  get [("note", TextValue "hello"); ("file", @TextValue string "")] "file"
  = Some (TextValue "") /\
  exists ls,
    demoPOST (withField (TextValue "")) start
    = (Normal (json (JsonError "No file uploaded") (Some 400%Z)),
       {| logState := ls; puts := puts start |}).
Proof.
  repeat (split; [reflexivity|]).
  exact (proj1 (missing_or_text_file_gives_400 string string string [] (fun s => s) string (fun t => t) Logger.plainChalk
           "app/api/files/upload/route" Logger.demoEnv demoPut
                  (withField (TextValue "")) start "user-1"
                  [("note", TextValue "hello"); ("file", TextValue "")]
                  eq_refl eq_refl eq_refl) (or_intror eq_refl)).
Defined.

Lemma responses_of_the_handler_witness :
  fst (demoPOST (upload png) start)
  = Normal {| status := 200; body := JsonData "https://blob.example/cat.png" |} /\
  exists fd b bytes,
    formData (upload png) = Normal fd /\ get fd "file" = Some (FileValue b) /\
    passesValidation b /\ arrayBuffer b = Normal bytes /\
    demoPut (name b) bytes = Normal "https://blob.example/cat.png" /\
    puts (snd (demoPOST (upload png) start)) = (puts start ++ [putCall b bytes])%list.
Proof.
  split; [reflexivity|].
  exact (proj2 (proj2 (responses_of_the_handler string string string [] (fun s => s) string (fun t => t) Logger.plainChalk
           "app/api/files/upload/route" Logger.demoEnv demoPut
                         (upload png) start
                         {| status := 200; body := JsonData "https://blob.example/cat.png" |}
                         eq_refl))
           "https://blob.example/cat.png" eq_refl).
Defined.

Lemma handler_answers_when_errors_can_be_logged_witness :
  (exists session, auth unreadable = Normal session) /\
  (forall e, formData unreadable = Throw e -> CanLog (fun s => s) Logger.demoEnv e) /\
  exists response st', demoPOST unreadable start = (Normal response, st').
Proof.
  assert (Ha : exists session, auth unreadable = Normal session)
    by (eexists; reflexivity).
  assert (Hf : forall e, formData unreadable = Throw e ->
                         CanLog (fun s => s) Logger.demoEnv e).
  { intros e H. injection H as <-. right. eexists. reflexivity. }
  split; [exact Ha|]. split; [exact Hf|].
  exact (handler_answers_when_errors_can_be_logged string string string [] (fun s => s) string (fun t => t) Logger.plainChalk
           "app/api/files/upload/route" Logger.demoEnv demoPut
           unreadable Ha Hf
           (fun fd b e H _ _ => ltac:(discriminate H))
           (fun fd b bytes e H _ _ _ => ltac:(discriminate H))
           start).
Defined.

End UploadMore.
